(** * MemoSfeduBot: the conversation-context manager of [bot.py]

    A shallow embedding of the four Telegram handlers of [bot.py]
    ([start], [help_command], [clear], [handle_message]) over the global
    dictionary [user_context], followed by the properties of the
    per-user context window: its bound, the eviction order of the trim,
    reset, per-user framing and the handling of backend failures.

    Python values are modelled as follows.
    - a Python [str] is represented by the [string] of its UTF-8 bytes,
      as the literals of this file are; [len] and the slice [s[:n]]
      count characters (code points), so they count the bytes that are
      not continuation bytes.
    - [int] is [Z]; list lengths are [nat] and are injected where the
      source mixes them with integers.
    - a message dictionary [{"role": r, "content": c}] is the record
      [Message]; [c] is a [str] or [None] (the content of a completion
      choice is optional in the client library).
    - the dictionary [user_context] is a [gmap Z (list Message)].
    - the handlers run in the monad [Py]: the state is the dictionary
      together with the log of the calls made to the two collaborators
      (Telegram and the completion endpoint) and a ghost record of the
      messages appended for each user, and a computation either returns
      or raises a Python exception.
    - what the collaborators answer is not decided by [bot.py]; every
      handler invocation takes an [Env] that fixes the outcome of each
      external call it may make. *)

From Stdlib Require Import ZArith String List Lia DecimalString DecimalPos DecimalZ.
From stdpp Require Import base option list gmap strings.

Local Open Scope string_scope.
Local Open Scope list_scope.

(** ** Messages and constants *)

Record Message : Type := mkMessage {
  role : string;
  content : option string
}.

#[global] Instance Message_eq_dec : EqDecision Message.
Proof. solve_decision. Defined.

Definition newline : string := String (Ascii.ascii_of_nat 10) EmptyString.

(** The prompt of lines 25-26; its first line ends in a space and a
    line break. *)
Definition SYSTEM_PROMPT : string :=
  "You are a helpful and friendly AI assistant. You have memory of our conversation, "
  +:+ newline +:+
  "so you can reference previous messages and provide contextual responses. Always be polite and clear.".

Definition MAX_CONTEXT_LENGTH : Z := 20.

(** The literal [{"role": "system", "content": SYSTEM_PROMPT}] of lines
    35, 81 and 105. *)
Definition system_message : Message :=
  {| role := "system"; content := Some SYSTEM_PROMPT |}.

(** ** Exceptions and results *)

Inductive exn : Type :=
  | APIError (msg : string)       (* raised by [client.chat.completions.create] *)
  | TelegramError (msg : string)  (* raised by a call to the Telegram API *)
  | IndexError                    (* [l[i]] out of range *)
  | KeyError (key : Z)            (* [d[k]] on a missing key *)
  | TypeError                     (* [None[:50]] *)
  | AttributeError (attribute : string). (* [None.attribute] *)

Definition string_of_Z (z : Z) : string := NilZero.string_of_int (Z.to_int z).

(** [str(e)] *)
Definition str (e : exn) : string :=
  match e with
  | APIError msg => msg
  | TelegramError msg => msg
  | IndexError => "list index out of range"
  | KeyError key => string_of_Z key
  | TypeError => "'NoneType' object is not subscriptable"
  | AttributeError attribute =>
      "'NoneType' object has no attribute '" +:+ attribute +:+ "'"
  end.

Inductive result (A : Type) : Type :=
  | Returns (a : A)
  | Raises (e : exn).
Arguments Returns {A} a.
Arguments Raises {A} e.

(** ** Python list and string primitives *)

Section PyList.
Context {A : Type}.

(** [l[i]] for an integer [i], negative indices counting from the end. *)
Definition getitem (l : list A) (i : Z) : result A :=
  let n := Z.of_nat (length l) in
  let j := if (i <? 0)%Z then (i + n)%Z else i in
  if (j <? 0)%Z then Raises IndexError
  else match l !! Z.to_nat j with
       | Some x => Returns x
       | None => Raises IndexError
       end.

(** [l[i:]]: a negative start counts from the end, and the start is
    clamped to the range of the list. *)
Definition slice_from (l : list A) (i : Z) : list A :=
  let n := Z.of_nat (length l) in
  let start := if (i <? 0)%Z then Z.max (i + n) 0 else Z.min i n in
  drop (Z.to_nat start) l.
End PyList.

(** A continuation byte of UTF-8, of the form 10xxxxxx: a byte that
    does not start a character. *)
Definition is_continuation (c : Ascii.ascii) : bool :=
  match c with
  | Ascii.Ascii _ _ _ _ _ _ b6 b7 => b7 && negb b6
  end.

(** [len(s)]: the number of characters of [s]. *)
Fixpoint py_len (s : string) : nat :=
  match s with
  | EmptyString => 0
  | String c s' => if is_continuation c then py_len s' else S (py_len s')
  end.

(** [s[:n]] for [n >= 0]: the first [n] characters of [s], each with all
    its bytes. *)
Fixpoint str_prefix (n : nat) (s : string) : string :=
  match s with
  | EmptyString => EmptyString
  | String c s' =>
      if is_continuation c then String c (str_prefix n s')
      else match n with
           | 0 => EmptyString
           | S n' => String c (str_prefix n' s')
           end
  end.

(** The expression of line 113, for a bound [max_len]:
    [[ctx[0]] + ctx[-(max_len-1):]]. *)
Definition trimmed (max_len : Z) (ctx : list Message) : result (list Message) :=
  match getitem ctx 0 with
  | Returns first => Returns ([first] ++ slice_from ctx (- (max_len - 1)))
  | Raises e => Raises e
  end.

(** ** The collaborators *)

(** One call to a collaborator, with the argument that matters. *)
Inductive Call : Type :=
  | SendChatAction                          (* [context.bot.send_chat_action(..., 'typing')] *)
  | CreateCompletion (messages : list Message) (* [client.chat.completions.create(messages=...)] *)
  | ReplyText (text : string).              (* [update.message.reply_text(text)] *)

(** What the completion endpoint answers: the call raises, or it returns
    a response whose [choices] are given by the [message.content] of
    each choice. *)
Inductive Completion : Type :=
  | CompletionFails (msg : string)
  | CompletionReturns (choices : list (option string)).

(** The outcome of every external call of one handler invocation.  A
    Telegram call returns ([None]) or raises with a message ([Some]).
    [handle_message] calls [reply_text] at two places, which may behave
    differently. *)
Record Env : Type := mkEnv {
  chat_action_outcome : option string;
  completion_outcome : list Message -> Completion;
  reply_outcome : string -> option string;
  except_reply_outcome : string -> option string
}.

(** What the handlers read from an incoming update that carries a
    message sent by a user: [update.effective_user.id],
    [update.effective_user.first_name] and [update.message.text].  The
    updates in which [update.message] or [update.effective_user] is
    [None] are the [RawUpdate]s below. *)
Record Update : Type := mkUpdate {
  effective_user_id : Z;
  first_name : string;
  message_text : string
}.

(** ** State and the handler monad *)

(** [user_context] is the dictionary of line 23 and [calls] the external
    calls made so far, oldest first.  [appended] is ghost state, not a
    variable of the program: for each user, the messages appended to the
    context since it was last created or reset, none of them ever
    removed.  No handler reads it. *)
Record World : Type := mkWorld {
  user_context : gmap Z (list Message);
  calls : list Call;
  appended : gmap Z (list Message)
}.

Definition Py (A : Type) : Type := World -> result A * World.

Definition ret {A} (a : A) : Py A := fun w => (Returns a, w).

Definition raise {A} (e : exn) : Py A := fun w => (Raises e, w).

Definition bind {A B} (m : Py A) (k : A -> Py B) : Py B :=
  fun w =>
    match m w with
    | (Returns a, w') => k a w'
    | (Raises e, w') => (Raises e, w')
    end.

(** [try: body except Exception as e: handler e] *)
Definition try_except {A} (body : Py A) (handler : exn -> Py A) : Py A :=
  fun w =>
    match body w with
    | (Returns a, w') => (Returns a, w')
    | (Raises e, w') => handler e w'
    end.

Definition lift {A} (r : result A) : Py A := fun w => (r, w).

#[global] Instance Py_ret : MRet Py := @ret.
#[global] Instance Py_bind : MBind Py := fun A B k m => bind m k.

(** [user_id in user_context] *)
Definition contains (user_id : Z) : Py bool :=
  fun w => (Returns (bool_decide (is_Some (user_context w !! user_id))), w).

(** [user_context[user_id]] *)
Definition get_context (user_id : Z) : Py (list Message) :=
  fun w =>
    match user_context w !! user_id with
    | Some ctx => (Returns ctx, w)
    | None => (Raises (KeyError user_id), w)
    end.

(** [user_context.get(user_id, [])] *)
Definition get_context_or_empty (user_id : Z) : Py (list Message) :=
  fun w => (Returns (default [] (user_context w !! user_id)), w).

(** [user_context[user_id] = [{"role": "system", "content": SYSTEM_PROMPT}]]
    (lines 35, 81 and 105): the user's history starts afresh.  The
    literal builds a new list each time it is evaluated, so the entries
    of two users never share a list. *)
Definition new_context (user_id : Z) : Py unit :=
  fun w => (Returns tt,
            {| user_context := <[user_id := [system_message]]> (user_context w);
               calls := calls w;
               appended := <[user_id := []]> (appended w) |}).

(** [user_context[user_id] = ctx] *)
Definition set_context (user_id : Z) (ctx : list Message) : Py unit :=
  fun w => (Returns tt,
            {| user_context := <[user_id := ctx]> (user_context w);
               calls := calls w;
               appended := appended w |}).

(** [user_context[user_id].append(m)] *)
Definition append (user_id : Z) (m : Message) : Py unit :=
  fun w =>
    match user_context w !! user_id with
    | Some ctx =>
        (Returns tt,
         {| user_context := <[user_id := ctx ++ [m]]> (user_context w);
            calls := calls w;
            appended := <[user_id := default [] (appended w !! user_id) ++ [m]]> (appended w) |})
    | None => (Raises (KeyError user_id), w)
    end.

(** An external call: it is logged, then it returns or raises. *)
Definition external (c : Call) (outcome : option exn) : Py unit :=
  fun w =>
    let w' := {| user_context := user_context w;
                 calls := calls w ++ [c];
                 appended := appended w |} in
    match outcome with
    | None => (Returns tt, w')
    | Some e => (Raises e, w')
    end.

Definition send_chat_action (env : Env) : Py unit :=
  external SendChatAction (TelegramError <$> chat_action_outcome env).

Definition reply_text (outcome : string -> option string) (text : string) : Py unit :=
  external (ReplyText text) (TelegramError <$> outcome text).

(** [await client.chat.completions.create(messages=messages, ...)]; the
    value returned is [response.choices]. *)
Definition create (env : Env) (messages : list Message) : Py (list (option string)) :=
  fun w =>
    let w' := {| user_context := user_context w;
                 calls := calls w ++ [CreateCompletion messages];
                 appended := appended w |} in
    match completion_outcome env messages with
    | CompletionFails msg => (Raises (APIError msg), w')
    | CompletionReturns choices => (Returns choices, w')
    end.

(** ** The texts sent to the user *)

(** [welcome_message] of [start] (lines 39-47). *)
Definition welcome_message (user_name : string) : string :=
  "Привет, " +:+ user_name +:+ "! 👋

Я LocalMind — Telegram-бот с локальной языковой моделью.

🧠 Я запоминаю наш разговор и могу отвечать с учетом контекста.
💬 Просто напиши мне что-нибудь, и я отвечу!

Команды:
/help — показать справку
/clear — очистить историю диалога".

(** [help_text] of [help_command] (lines 52-67). *)
Definition help_text : string :=
  "📖 *Справка по боту LocalMind*

Я — бот с локальной языковой моделью (LM Studio).
Я помню историю нашего диалога и отвечаю с учетом контекста.

*Доступные команды:*
/start — начать/перезапустить бота
/help — показать эту справку
/clear — очистить историю диалога

*Как использовать контекст:*
Попробуйте задать несколько связанных вопросов.
Например:
1️⃣ 'Расскажи про Python'
2️⃣ 'А какие у него преимущества?' (я пойму, что речь о Python)
3️⃣ 'Где он используется?' (контекст сохраняется)

Используйте /clear, чтобы начать новую тему.".

(** The reply of [clear] (lines 85-89); [messages_count] is printed in
    decimal. *)
Definition clear_text (messages_count : Z) : string :=
  "🗑️ Контекст диалога очищен.

Удалено сообщений: " +:+ string_of_Z messages_count +:+ "

Я забыл всё, о чем мы говорили ранее. Давайте начнем сначала!".

(** The reply of the [except] branch of [handle_message] (lines
    141-149); the details are [str(e)[:100]]. *)
Definition error_details (e : exn) : string := str_prefix 100 (str e).

Definition error_text (e : exn) : string :=
  "❌ Произошла ошибка при обращении к LM Studio.

Пожалуйста, убедитесь что:
1️⃣ LM Studio запущен
2️⃣ Модель загружена
3️⃣ Сервер активен (кнопка Start Server)
4️⃣ Сервер доступен по адресу http://localhost:1234

Детали ошибки: " +:+ error_details e.

(** ** The handlers *)

(** [start] (lines 31-48). *)
Definition start (env : Env) (update : Update) : Py unit :=
  let user_id := effective_user_id update in
  let user_name := first_name update in
  new_context user_id;;
  reply_text (reply_outcome env) (welcome_message user_name).

(** [help_command] (lines 50-68). *)
Definition help_command (env : Env) (update : Update) : Py unit :=
  reply_text (reply_outcome env) help_text.

(** Line 78: [len(user_context.get(user_id, [])) - 1]. *)
Definition count_messages (user_id : Z) : Py Z :=
  ctx ← get_context_or_empty user_id;
  mret (Z.of_nat (length ctx) - 1)%Z.

(** [clear] (lines 70-89). *)
Definition clear (env : Env) (update : Update) : Py unit :=
  let user_id := effective_user_id update in
  messages_count ← count_messages user_id;
  new_context user_id;;
  reply_text (reply_outcome env) (clear_text messages_count).

(** Lines 104-105: a new user gets a context holding the system message. *)
Definition ensure_context (user_id : Z) : Py unit :=
  known ← contains user_id;
  if negb known then new_context user_id else mret tt.

(** Lines 109-114: the user's message is appended, and the context is
    trimmed when it has become longer than [MAX_CONTEXT_LENGTH]. *)
Definition append_user (user_id : Z) (user_message : string) : Py unit :=
  append user_id {| role := "user"; content := Some user_message |};;
  ctx ← get_context user_id;
  if (MAX_CONTEXT_LENGTH <? Z.of_nat (length ctx))%Z
  then ctx' ← lift (trimmed MAX_CONTEXT_LENGTH ctx);
       set_context user_id ctx'
  else mret tt.

(** Lines 123-137, the body of the [try]: the whole context is sent, the
    content of the first choice is appended as the assistant's message
    and sent to the user.  The logging call of line 135 evaluates
    [bot_response[:50]], which raises on [None]. *)
Definition complete_and_reply (env : Env) (user_id : Z) : Py unit :=
  messages ← get_context user_id;
  choices ← create env messages;
  bot_response ← lift (getitem choices 0);
  append user_id {| role := "assistant"; content := bot_response |};;
  match bot_response with
  | None => raise TypeError
  | Some text => reply_text (reply_outcome env) text
  end.

(** Lines 139-149, the [except Exception as e] branch. *)
Definition report_error (env : Env) (e : exn) : Py unit :=
  reply_text (except_reply_outcome env) (error_text e).

(** [handle_message] (lines 91-149). *)
Definition handle_message (env : Env) (update : Update) : Py unit :=
  let user_id := effective_user_id update in
  let user_message := message_text update in
  ensure_context user_id;;
  append_user user_id user_message;;
  send_chat_action env;;
  try_except (complete_and_reply env user_id) (report_error env).

(** ** Updates of any shape *)

(** An update as the application passes it to a handler:
    [update.effective_user] is a user (identifier and first name) or
    [None], as for a channel post; [update.message] is a message (its
    text) or [None], as for an edited message, which the handlers
    registered at lines 158-161 receive as well. *)
Record RawUpdate : Type := mkRawUpdate {
  raw_user : option (Z * string);
  raw_text : option string
}.

Inductive Handler : Type := OnStart | OnHelp | OnClear | OnText.

(** A handler on any update.  On an update with a user and a message it
    is the handler above.  Otherwise the first read of an attribute of
    [None] raises: [update.effective_user.id] at lines 33, 75 and 100,
    [update.message.text] at line 101, and [update.message.reply_text]
    at lines 48, 68 and 85, that is after the assignment of line 35 in
    [start] and after lines 78 and 81 in [clear]. *)
Definition invoke (h : Handler) (env : Env) (raw : RawUpdate) : Py unit :=
  match h with
  | OnStart =>
      match raw_user raw, raw_text raw with
      | None, _ => raise (AttributeError "id")
      | Some (user_id, name), Some text => start env (mkUpdate user_id name text)
      | Some (user_id, _), None =>
          new_context user_id;;
          raise (AttributeError "reply_text")
      end
  | OnHelp =>
      match raw_text raw with
      | None => raise (AttributeError "reply_text")
      | Some _ => reply_text (reply_outcome env) help_text
      end
  | OnClear =>
      match raw_user raw, raw_text raw with
      | None, _ => raise (AttributeError "id")
      | Some (user_id, name), Some text => clear env (mkUpdate user_id name text)
      | Some (user_id, _), None =>
          _ ← count_messages user_id;
          new_context user_id;;
          raise (AttributeError "reply_text")
      end
  | OnText =>
      match raw_user raw, raw_text raw with
      | None, _ => raise (AttributeError "id")
      | Some (user_id, _), None => raise (AttributeError "text")
      | Some (user_id, name), Some text =>
          handle_message env (mkUpdate user_id name text)
      end
  end.

(** ** Running the bot *)

(** The updates the application dispatches to a handler (lines 158-166). *)
Inductive Event : Type :=
  | StartCommand (env : Env) (update : Update)
  | HelpCommand (env : Env) (update : Update)
  | ClearCommand (env : Env) (update : Update)
  | TextMessage (env : Env) (update : Update).

Definition handler (ev : Event) : Py unit :=
  match ev with
  | StartCommand env update => start env update
  | HelpCommand env update => help_command env update
  | ClearCommand env update => clear env update
  | TextMessage env update => handle_message env update
  end.

Definition event_user (ev : Event) : Z :=
  match ev with
  | StartCommand _ update | HelpCommand _ update
  | ClearCommand _ update | TextMessage _ update => effective_user_id update
  end.

(** The world after a handler has run; an exception that leaves the
    handler ends that update only, the process goes on. *)
Definition step (w : World) (ev : Event) : World := snd (handler ev w).

(** Line 23: the dictionary is empty when the process starts. *)
Definition initial_world : World :=
  {| user_context := ∅; calls := []; appended := ∅ |}.

Definition run_from (w : World) (evs : list Event) : World := fold_left step evs w.

Definition run (evs : list Event) : World := run_from initial_world evs.


(** * Vocabulary of the properties *)

(** The last [k] elements of a list, the whole list when it is shorter. *)
Definition recent {A} (k : nat) (l : list A) : list A := drop (length l - k) l.

Definition user_message (text : string) : Message :=
  {| role := "user"; content := Some text |}.

Definition assistant_message (c : option string) : Message :=
  {| role := "assistant"; content := c |}.

(** The first element and the 19 most recent of the others. *)
Definition keep_recent (ctx : list Message) : list Message :=
  match ctx with
  | [] => []
  | first :: rest => first :: recent 19 rest
  end.

(** The context a turn works on: the stored one, or a new one. *)
Definition context_or_new (w : World) (user_id : Z) : list Message :=
  default [system_message] (user_context w !! user_id).

Ltac unfold_py :=
  unfold mbind, mret, Py_bind, Py_ret, bind, ret, lift, raise.

(** The history a turn extends: the recorded one, or an empty one when
    the context is created by the turn. *)
Definition history_or_new (w : World) (user_id : Z) : list Message :=
  match user_context w !! user_id with
  | Some _ => default [] (appended w !! user_id)
  | None => []
  end.

(** The context sent to the completion endpoint by a turn started in [w]. *)
Definition prompt_of (w : World) (update : Update) : list Message :=
  keep_recent (context_or_new w (effective_user_id update)
               ++ [user_message (message_text update)]).

(** The world of a turn after lines 104-114, before any external call. *)
Definition user_appended (w : World) (update : Update) : World :=
  snd ((ensure_context (effective_user_id update);;
        append_user (effective_user_id update) (message_text update)) w).

(** The exception a completion outcome makes the [try] body raise before
    anything is sent to the user: the call itself raises, [choices[0]]
    fails on an empty list, or the content of the first choice is
    [None]. *)
Definition backend_failure (c : Completion) : option exn :=
  match c with
  | CompletionFails msg => Some (APIError msg)
  | CompletionReturns [] => Some IndexError
  | CompletionReturns (None :: _) => Some TypeError
  | CompletionReturns (Some _ :: _) => None
  end.

(** The assistant message a completion outcome makes the [try] body
    append. *)
Definition reply_appended (c : Completion) : list Message :=
  match c with
  | CompletionFails _ | CompletionReturns [] => []
  | CompletionReturns (content :: _) => [assistant_message content]
  end.

Definition raised (outcome : option string) : result unit :=
  match outcome with
  | None => Returns tt
  | Some msg => Raises (TelegramError msg)
  end.

(** Summary of lines 117-149 for a given prompt: the result of the
    handler and the external calls it makes. *)
Definition turn_result (env : Env) (prompt : list Message) : result unit * list Call :=
  match chat_action_outcome env with
  | Some msg => (Raises (TelegramError msg), [SendChatAction])
  | None =>
      let report e :=
        (raised (except_reply_outcome env (error_text e)), [ReplyText (error_text e)]) in
      let '(r, cs) :=
        match completion_outcome env prompt with
        | CompletionFails msg => report (APIError msg)
        | CompletionReturns [] => report IndexError
        | CompletionReturns (None :: _) => report TypeError
        | CompletionReturns (Some text :: _) =>
            match reply_outcome env text with
            | None => (Returns tt, [ReplyText text])
            | Some msg =>
                let '(r, cs) := report (TelegramError msg) in
                (r, ReplyText text :: cs)
            end
        end in
      (r, SendChatAction :: CreateCompletion prompt :: cs)
  end.

(** The assistant message appended by a turn, if any. *)
Definition turn_appended (env : Env) (prompt : list Message) : list Message :=
  match chat_action_outcome env with
  | Some _ => []
  | None => reply_appended (completion_outcome env prompt)
  end.

(** The count [clear] reports for a user, as line 78 computes it. *)
Definition messages_count (w : World) (user_id : Z) : Z :=
  (Z.of_nat (length (default [] (user_context w !! user_id))) - 1)%Z.

(** How many of the appended messages a context holds at most: 19 when
    the last append was the user's (the trim has just run), 20 when it
    was the assistant's (no trim follows it). *)
Definition window (h : list Message) : nat :=
  match last h with
  | Some m => if decide (role m = "assistant") then 20 else 19
  | None => 19
  end.

Definition conversational (m : Message) : Prop :=
  role m = "user" \/ role m = "assistant".

(** The invariant of the store: every stored context is the system
    message followed by the most recent appended messages. *)
Definition tracked (w : World) : Prop :=
  forall user_id ctx,
    user_context w !! user_id = Some ctx ->
    exists h,
      appended w !! user_id = Some h
      /\ ctx = system_message :: recent (window h) h
      /\ Forall conversational h.

(** The exception the [try] body raises when the completion call itself
    raises or the response has no choice: the two failures that occur
    before line 133. *)
Definition call_failure (c : Completion) : option exn :=
  match c with
  | CompletionFails msg => Some (APIError msg)
  | CompletionReturns [] => Some IndexError
  | CompletionReturns (_ :: _) => None
  end.

(** A handler result that is a normal return or an exception raised by
    a Telegram call. *)
Definition from_telegram (r : result unit) : Prop :=
  match r with
  | Returns _ | Raises (TelegramError _) => True
  | Raises _ => False
  end.

(** A request to the completion endpoint that respects the bound and
    starts with the system message; other calls are not constrained. *)
Definition bounded_prompt (c : Call) : Prop :=
  match c with
  | CreateCompletion messages =>
      (Z.of_nat (length messages) <= MAX_CONTEXT_LENGTH)%Z
      /\ messages !! 0 = Some system_message
  | _ => True
  end.

(** The number of messages of a context that are not system messages. *)
Definition non_system (ctx : list Message) : nat :=
  length (filter (fun m => role m <> "system") ctx).

(** The event of a reset command: [/start] or [/clear]. *)
Definition reset_command (by_start : bool) (env : Env) (update : Update) : Event :=
  if by_start then StartCommand env update else ClearCommand env update.

(** ** Scenarios *)

Definition always_sent : string -> option string := fun _ => None.

(** A backend that answers [reply], with Telegram working. *)
Definition answering (reply : string) : Env :=
  {| chat_action_outcome := None;
     completion_outcome := fun _ => CompletionReturns [Some reply];
     reply_outcome := always_sent;
     except_reply_outcome := always_sent |}.

(** A backend that cannot be reached, with Telegram working. *)
Definition unreachable_backend : Env :=
  {| chat_action_outcome := None;
     completion_outcome := fun _ => CompletionFails "Connection error.";
     reply_outcome := always_sent;
     except_reply_outcome := always_sent |}.

Definition from_user (user_id : Z) (text : string) : Update :=
  {| effective_user_id := user_id; first_name := "Ann"; message_text := text |}.

Definition question (i : nat) : string := "question " +:+ string_of_Z (Z.of_nat i).

Definition answer (i : nat) : string := "answer " +:+ string_of_Z (Z.of_nat i).

(** Turn [i] of user 7, answered. *)
Definition exchange (i : nat) : Event :=
  TextMessage (answering (answer i)) (from_user 7 (question i)).

(** Turn [i] of user 7, with the backend down. *)
Definition lost_question (i : nat) : Event :=
  TextMessage unreachable_backend (from_user 7 (question i)).

(** The answered turns [first], ..., [first + n - 1]. *)
Definition exchanges (first n : nat) : list Event := map exchange (seq first n).

(** 25 appends for user 7, the last one an assistant reply: one
    unanswered question, then twelve answered ones. *)
Definition reply_last : list Event := lost_question 0 :: exchanges 1 12.

(** 25 appends for user 7, the last one a user message: twelve answered
    questions, then an unanswered one. *)
Definition question_last : list Event := exchanges 1 12 ++ [lost_question 13].

(** User 7 holds a context of 20 elements: one unanswered question,
    then nine answered ones. *)
Definition full_context : list Event := lost_question 0 :: exchanges 1 9.

(** A backend whose response has no choice, and a Telegram that refuses
    the error text. *)
Definition no_choices : Env :=
  {| chat_action_outcome := None;
     completion_outcome := fun _ => CompletionReturns [];
     reply_outcome := always_sent;
     except_reply_outcome := fun _ => Some "Timed out" |}.

(** ** Vocabulary of the further properties *)

(** A call that sends a text to the user. *)
Definition is_reply (c : Call) : bool :=
  match c with
  | ReplyText _ => true
  | _ => false
  end.

(** A call to [client.chat.completions.create]. *)
Definition is_completion (c : Call) : bool :=
  match c with
  | CreateCompletion _ => true
  | _ => false
  end.

(** An update whose handler reaches the completion call: a text message
    whose typing indicator was accepted. *)
Definition asks_backend (ev : Event) : bool :=
  match ev with
  | TextMessage env _ => bool_decide (chat_action_outcome env = None)
  | _ => false
  end.

Definition count_if {A} (p : A -> bool) (l : list A) : nat :=
  length (List.filter p l).

(** The users for which a sequence of updates writes [user_context]:
    those of every update but [/help]. *)
Fixpoint known_users (evs : list Event) : gset Z :=
  match evs with
  | [] => ∅
  | HelpCommand _ _ :: evs' => known_users evs'
  | ev :: evs' => {[event_user ev]} ∪ known_users evs'
  end.

(** A Telegram that refuses the typing indicator. *)
Definition typing_refused : Env :=
  {| chat_action_outcome := Some "Timed out";
     completion_outcome := fun _ => CompletionReturns [Some "hi there"];
     reply_outcome := always_sent;
     except_reply_outcome := always_sent |}.

(** A backend whose only choice has no content. *)
Definition empty_choice : Env :=
  {| chat_action_outcome := None;
     completion_outcome := fun _ => CompletionReturns [None];
     reply_outcome := always_sent;
     except_reply_outcome := always_sent |}.

(** A backend that answers, and a Telegram that refuses the answer but
    accepts the error text. *)
Definition reply_refused : Env :=
  {| chat_action_outcome := None;
     completion_outcome := fun _ => CompletionReturns [Some "hi there"];
     reply_outcome := fun _ => Some "Message is too long";
     except_reply_outcome := always_sent |}.

(** * Properties *)

(** ** Python slices *)

Section Recent.
Context {A : Type}.
Implicit Types (l : list A) (k : nat).

Lemma recent_length k l : length (recent k l) = Nat.min k (length l).
Proof. unfold recent. rewrite length_drop. lia. Qed.

Lemma recent_all k l : length l <= k -> recent k l = l.
Proof.
  intros Hle. unfold recent.
  replace (length l - k) with 0 by lia. reflexivity.
Qed.

Lemma recent_snoc k l x : recent (S k) (l ++ [x]) = recent k l ++ [x].
Proof.
  unfold recent. rewrite length_app. simpl.
  replace (length l + 1 - S k) with (length l - k) by lia.
  rewrite drop_app_le by lia. reflexivity.
Qed.

Lemma recent_recent k k' l : k <= k' -> recent k (recent k' l) = recent k l.
Proof.
  intros Hle. unfold recent. rewrite length_drop, drop_drop.
  f_equal. lia.
Qed.

(** What is kept is a suffix: the older elements go first and the
    order of the others is unchanged. *)
Lemma recent_suffix k l : exists evicted, l = evicted ++ recent k l.
Proof.
  exists (take (length l - k) l). unfold recent.
  symmetry. apply take_drop.
Qed.

Lemma slice_from_neg k l :
  0 < k -> slice_from l (- Z.of_nat k) = recent k l.
Proof.
  intros Hk. unfold slice_from, recent.
  destruct (Z.ltb_spec (- Z.of_nat k) 0) as [_ | Hge]; [| lia].
  f_equal. lia.
Qed.

Lemma getitem_cons x l : getitem (x :: l) 0 = Returns x.
Proof. reflexivity. Qed.

Lemma getitem_nil (i : Z) : getitem (@nil A) i = Raises IndexError.
Proof.
  unfold getitem. simpl.
  destruct (i <? 0)%Z; destruct (_ <? 0)%Z; reflexivity.
Qed.
End Recent.

Lemma py_len_str_prefix n s : py_len (str_prefix n s) = Nat.min n (py_len s).
Proof.
  revert n. induction s as [| c s IH]; intros n; cbn [str_prefix py_len].
  - lia.
  - destruct (is_continuation c) eqn:Hc.
    + cbn [py_len]. rewrite Hc. apply IH.
    + destruct n as [| n]; [reflexivity |].
      cbn [py_len]. rewrite Hc, IH. lia.
Qed.

Lemma str_prefix_length n s : py_len (str_prefix n s) <= n.
Proof. rewrite py_len_str_prefix. lia. Qed.

(** The slice is a prefix of the string. *)
Lemma str_prefix_prefix n s : exists rest, s = str_prefix n s +:+ rest.
Proof.
  revert n. induction s as [| c s IH]; intros n; cbn [str_prefix].
  - exists EmptyString. reflexivity.
  - destruct (is_continuation c).
    + destruct (IH n) as [rest Hrest]. exists rest.
      change (String c s = String c (str_prefix n s +:+ rest)). f_equal. exact Hrest.
    + destruct n as [| n].
      * exists (String c s). reflexivity.
      * destruct (IH n) as [rest Hrest]. exists rest.
        change (String c s = String c (str_prefix n s +:+ rest)). f_equal. exact Hrest.
Qed.

(** A string of at most [n] characters is its own slice. *)
Lemma str_prefix_all n s : py_len s <= n -> str_prefix n s = s.
Proof.
  revert n. induction s as [| c s IH]; intros n; cbn [str_prefix py_len].
  - reflexivity.
  - destruct (is_continuation c).
    + intros Hlen. rewrite IH by assumption. reflexivity.
    + destruct n as [| n]; [lia |].
      intros Hlen. rewrite IH by lia. reflexivity.
Qed.

(** The slice counts characters, not bytes: each Cyrillic letter takes
    two bytes. *)
Example str_prefix_cyrillic :
  str_prefix 3 "Привет" = "При" /\ py_len "Привет" = 6 /\ String.length "Привет" = 12.
Proof. repeat split. Qed.

(** ** The trim of line 113 *)

Section Trim.
Variable max_len : Z.
Hypothesis max_len_ge_2 : (2 <= max_len)%Z.

(** On a context longer than the bound the expression of line 113
    keeps the first element and the [max_len - 1] most recent ones. *)
Lemma trimmed_long first rest :
  (max_len < Z.of_nat (length (first :: rest)))%Z ->
  trimmed max_len (first :: rest)
  = Returns (first :: recent (Z.to_nat (max_len - 1)) rest).
Proof.
  intros Hlong. unfold trimmed. rewrite getitem_cons.
  replace (- (max_len - 1))%Z with (- Z.of_nat (Z.to_nat (max_len - 1)))%Z by lia.
  rewrite slice_from_neg by lia.
  simpl in Hlong. unfold recent. simpl length.
  replace (S (length rest) - Z.to_nat (max_len - 1))
    with (S (length rest - Z.to_nat (max_len - 1))) by lia.
  reflexivity.
Qed.

Lemma trimmed_long_length first rest :
  (max_len < Z.of_nat (length (first :: rest)))%Z ->
  exists ctx, trimmed max_len (first :: rest) = Returns ctx
              /\ Z.of_nat (length ctx) = max_len.
Proof.
  intros Hlong. eexists. split; [apply trimmed_long; assumption |].
  simpl in *. rewrite recent_length. lia.
Qed.

(** Lines 112-114 as a whole, on a context that is not empty. *)
Lemma trim_when_long first rest :
  (if (max_len <? Z.of_nat (length (first :: rest)))%Z
   then trimmed max_len (first :: rest)
   else Returns (first :: rest))
  = Returns (first :: recent (Z.to_nat (max_len - 1)) rest).
Proof.
  destruct (Z.ltb_spec max_len (Z.of_nat (length (first :: rest)))) as [Hlong | Hshort].
  - apply trimmed_long; assumption.
  - simpl in Hshort. rewrite recent_all by lia. reflexivity.
Qed.
End Trim.

(** With a bound of 1 the slice [ctx[-0:]] is the whole list, so the
    expression would grow the context instead of trimming it; the
    hypothesis of the section is needed. *)
Example trimmed_bound_1 :
  trimmed 1 [system_message; mkMessage "user" (Some "a")]
  = Returns [system_message; system_message; mkMessage "user" (Some "a")].
Proof. reflexivity. Qed.

(** ** What each handler does to the world *)

Lemma keep_recent_snoc ctx m :
  (if (MAX_CONTEXT_LENGTH <? Z.of_nat (length (ctx ++ [m])))%Z
   then trimmed MAX_CONTEXT_LENGTH (ctx ++ [m])
   else Returns (ctx ++ [m]))
  = Returns (keep_recent (ctx ++ [m])).
Proof.
  destruct (ctx ++ [m]) as [| first rest] eqn:E.
  - destruct ctx; discriminate.
  - exact (trim_when_long MAX_CONTEXT_LENGTH ltac:(unfold MAX_CONTEXT_LENGTH; lia)
             first rest).
Qed.

Lemma ensure_context_known w user_id ctx :
  user_context w !! user_id = Some ctx ->
  ensure_context user_id w = (Returns tt, w).
Proof.
  intros Hctx. unfold ensure_context, contains. unfold_py.
  rewrite Hctx. rewrite bool_decide_eq_true_2 by eauto. reflexivity.
Qed.

Lemma ensure_context_new w user_id :
  user_context w !! user_id = None ->
  ensure_context user_id w
  = (Returns tt,
     {| user_context := <[user_id := [system_message]]> (user_context w);
        calls := calls w;
        appended := <[user_id := []]> (appended w) |}).
Proof.
  intros Hctx. unfold ensure_context, contains. unfold_py.
  rewrite Hctx.
  rewrite bool_decide_eq_false_2 by (intros [? ?]; discriminate).
  reflexivity.
Qed.

Lemma append_user_eq w user_id text ctx :
  user_context w !! user_id = Some ctx ->
  append_user user_id text w
  = (Returns tt,
     {| user_context :=
          <[user_id := keep_recent (ctx ++ [user_message text])]> (user_context w);
        calls := calls w;
        appended :=
          <[user_id := default [] (appended w !! user_id) ++ [user_message text]]>
            (appended w) |}).
Proof.
  intros Hctx. unfold append_user, append, get_context, set_context. unfold_py.
  rewrite Hctx. cbn [user_context calls appended].
  rewrite lookup_insert_eq.
  fold (user_message text).
  pose proof (keep_recent_snoc ctx (user_message text)) as Htrim.
  destruct (MAX_CONTEXT_LENGTH <? Z.of_nat (length (ctx ++ [user_message text])))%Z.
  - rewrite Htrim. cbn [user_context calls appended].
    rewrite insert_insert_eq. reflexivity.
  - injection Htrim as <-. reflexivity.
Qed.

Lemma user_phase_eq w update :
  (ensure_context (effective_user_id update);;
   append_user (effective_user_id update) (message_text update)) w
  = (Returns tt,
     {| user_context :=
          <[effective_user_id update := prompt_of w update]> (user_context w);
        calls := calls w;
        appended :=
          <[effective_user_id update :=
              history_or_new w (effective_user_id update)
              ++ [user_message (message_text update)]]> (appended w) |}).
Proof.
  unfold prompt_of, context_or_new, history_or_new.
  destruct (user_context w !! effective_user_id update) as [ctx |] eqn:Hctx.
  - unfold_py. rewrite (ensure_context_known _ _ _ Hctx).
    rewrite (append_user_eq _ _ _ _ Hctx). reflexivity.
  - unfold_py. rewrite (ensure_context_new _ _ Hctx).
    erewrite append_user_eq by (cbn; apply lookup_insert_eq).
    cbn [user_context calls appended default].
    rewrite lookup_insert_eq, !insert_insert_eq. reflexivity.
Qed.

Lemma user_appended_eq w update :
  user_appended w update
  = {| user_context :=
         <[effective_user_id update := prompt_of w update]> (user_context w);
       calls := calls w;
       appended :=
         <[effective_user_id update :=
             history_or_new w (effective_user_id update)
             ++ [user_message (message_text update)]]> (appended w) |}.
Proof. unfold user_appended. rewrite user_phase_eq. reflexivity. Qed.

Lemma handle_message_eq env update w :
  let user_id := effective_user_id update in
  let prompt := prompt_of w update in
  let extra := turn_appended env prompt in
  handle_message env update w
  = (fst (turn_result env prompt),
     {| user_context := <[user_id := prompt ++ extra]> (user_context w);
        calls := calls w ++ snd (turn_result env prompt);
        appended :=
          <[user_id := history_or_new w user_id
                       ++ [user_message (message_text update)] ++ extra]>
            (appended w) |}).
Proof.
  intros user_id prompt extra. subst extra.
  unfold handle_message. cbv zeta.
  pose proof (user_phase_eq w update) as Hphase.
  unfold mbind, Py_bind, bind in Hphase |- *.
  fold user_id prompt in Hphase |- *.
  destruct (ensure_context user_id w) as [[[] | e] w0]; [| discriminate].
  rewrite Hphase. clear Hphase.
  unfold turn_result, turn_appended, send_chat_action, external.
  destruct (chat_action_outcome env) as [msg |]; cbn [fmap option_fmap option_map].
  { cbn. rewrite app_nil_r. reflexivity. }
  unfold try_except, complete_and_reply, report_error, reply_text, external,
    get_context, create, append.
  unfold_py. cbn [user_context calls appended].
  rewrite lookup_insert_eq.
  destruct (completion_outcome env prompt) as [msg | [| [text |] others]];
    cbn [getitem reply_appended user_context calls appended fst snd];
    rewrite ?getitem_nil, ?getitem_cons.
  - destruct (except_reply_outcome env _); cbn;
      rewrite <- ?app_assoc, ?app_nil_r; reflexivity.
  - destruct (except_reply_outcome env _); cbn;
      rewrite <- ?app_assoc, ?app_nil_r; reflexivity.
  - rewrite !lookup_insert_eq. cbn [default].
    destruct (reply_outcome env text) as [msg |]; cbn.
    + destruct (except_reply_outcome env _); cbn;
        rewrite <- ?app_assoc, !insert_insert_eq; reflexivity.
    + rewrite <- ?app_assoc, !insert_insert_eq. reflexivity.
  - rewrite !lookup_insert_eq. cbn [default].
    destruct (except_reply_outcome env _); cbn;
      rewrite <- ?app_assoc, !insert_insert_eq; reflexivity.
Qed.

Lemma start_eq env update w :
  start env update w
  = (raised (reply_outcome env (welcome_message (first_name update))),
     {| user_context :=
          <[effective_user_id update := [system_message]]> (user_context w);
        calls := calls w ++ [ReplyText (welcome_message (first_name update))];
        appended := <[effective_user_id update := []]> (appended w) |}).
Proof.
  unfold start, new_context, reply_text, external. unfold_py. cbn.
  destruct (reply_outcome env _); reflexivity.
Qed.

Lemma help_command_eq env update w :
  help_command env update w
  = (raised (reply_outcome env help_text),
     {| user_context := user_context w;
        calls := calls w ++ [ReplyText help_text];
        appended := appended w |}).
Proof.
  unfold help_command, reply_text, external.
  destruct (reply_outcome env _); reflexivity.
Qed.

Lemma count_messages_eq user_id w :
  count_messages user_id w = (Returns (messages_count w user_id), w).
Proof. reflexivity. Qed.

Lemma clear_eq env update w :
  let user_id := effective_user_id update in
  let text := clear_text (messages_count w user_id) in
  clear env update w
  = (raised (reply_outcome env text),
     {| user_context := <[user_id := [system_message]]> (user_context w);
        calls := calls w ++ [ReplyText text];
        appended := <[user_id := []]> (appended w) |}).
Proof.
  unfold clear, count_messages, get_context_or_empty, new_context,
    reply_text, external, messages_count.
  unfold_py. cbn.
  destruct (reply_outcome env _); reflexivity.
Qed.

(** ** The stored context and the history of appends *)

Lemma window_user h text : window (h ++ [user_message text]) = 19.
Proof. unfold window. rewrite last_snoc. reflexivity. Qed.

Lemma window_assistant h c : window (h ++ [assistant_message c]) = 20.
Proof. unfold window. rewrite last_snoc. reflexivity. Qed.

Lemma window_bounds h : 19 <= window h <= 20.
Proof.
  unfold window. destruct (last h) as [m |]; [| lia].
  destruct (decide _); lia.
Qed.

(** The prompt of a turn, in terms of the history. *)
Lemma prompt_of_tracked w update :
  tracked w ->
  let user_id := effective_user_id update in
  let h := history_or_new w user_id ++ [user_message (message_text update)] in
  prompt_of w update = system_message :: recent 19 h
  /\ Forall conversational h.
Proof.
  intros Htracked user_id h. subst h.
  unfold prompt_of, context_or_new, history_or_new. fold user_id.
  destruct (user_context w !! user_id) as [ctx |] eqn:Hctx.
  - destruct (Htracked _ _ Hctx) as (h0 & Hh0 & -> & Hconv).
    rewrite Hh0. cbn [default from_option id app keep_recent].
    split.
    + f_equal. change 19 with (S 18). rewrite !recent_snoc.
      rewrite recent_recent by (pose proof (window_bounds h0); lia).
      reflexivity.
    + apply Forall_app. split; [assumption |].
      repeat constructor.
  - cbn. split; [reflexivity |]. repeat constructor.
Qed.

Lemma reply_appended_cases c :
  reply_appended c = [] \/ exists content, reply_appended c = [assistant_message content].
Proof.
  destruct c as [msg | [| content others]]; cbn; eauto.
Qed.

Lemma turn_appended_cases env prompt :
  turn_appended env prompt = []
  \/ exists content, turn_appended env prompt = [assistant_message content].
Proof.
  unfold turn_appended. destruct (chat_action_outcome env); [auto |].
  apply reply_appended_cases.
Qed.

Lemma tracked_initial : tracked initial_world.
Proof. intros user_id ctx Hctx. cbn in Hctx. rewrite lookup_empty in Hctx. discriminate. Qed.

Lemma tracked_reset w user_id cs :
  tracked w ->
  tracked {| user_context := <[user_id := [system_message]]> (user_context w);
             calls := cs;
             appended := <[user_id := []]> (appended w) |}.
Proof.
  intros Htracked other ctx. cbn [user_context appended].
  destruct (decide (user_id = other)) as [<- | Hne].
  - rewrite !lookup_insert_eq. intros [= <-].
    exists []. repeat split. constructor.
  - rewrite !lookup_insert_ne by assumption. apply Htracked.
Qed.

Lemma tracked_step w ev : tracked w -> tracked (step w ev).
Proof.
  intros Htracked. unfold step. destruct ev as [env u | env u | env u | env u]; cbn [handler].
  - rewrite start_eq. cbn [snd]. apply tracked_reset, Htracked.
  - rewrite help_command_eq. cbn [snd]. exact Htracked.
  - rewrite clear_eq. cbn [snd]. apply tracked_reset, Htracked.
  - rewrite handle_message_eq. cbn [snd].
    destruct (prompt_of_tracked w u Htracked) as [Hprompt Hconv].
    intros other ctx. cbn [user_context appended].
    destruct (decide (effective_user_id u = other)) as [<- | Hne].
    + rewrite !lookup_insert_eq. intros [= <-].
      eexists. split; [reflexivity |].
      destruct (turn_appended_cases env (prompt_of w u)) as [-> | [c ->]];
        rewrite Hprompt.
      * rewrite !app_nil_r. rewrite window_user. split; [reflexivity | assumption].
      * rewrite app_assoc, window_assistant. split.
        -- change 20 with (S 19). rewrite (recent_snoc 19). reflexivity.
        -- apply Forall_app. split; [assumption |].
           constructor; [right; reflexivity | constructor].
    + rewrite !lookup_insert_ne by assumption. apply Htracked.
Qed.

Lemma tracked_run_from w evs : tracked w -> tracked (run_from w evs).
Proof.
  revert w. induction evs as [| ev evs IH]; intros w Htracked; cbn.
  - assumption.
  - apply IH, tracked_step, Htracked.
Qed.

Lemma tracked_run evs : tracked (run evs).
Proof. apply tracked_run_from, tracked_initial. Qed.


(** ** The bound on the context (C1, C10) *)

Lemma keep_recent_length ctx :
  length (keep_recent ctx) = Nat.min (length ctx) 20.
Proof.
  destruct ctx as [| first rest]; [reflexivity |].
  cbn [keep_recent length]. rewrite recent_length. lia.
Qed.

Lemma prompt_of_length w update :
  length (prompt_of w update)
  = Nat.min (length (context_or_new w (effective_user_id update)) + 1) 20.
Proof.
  unfold prompt_of. rewrite keep_recent_length, length_app. reflexivity.
Qed.

Lemma prompt_of_bounded w update :
  tracked w -> bounded_prompt (CreateCompletion (prompt_of w update)).
Proof.
  intros Htracked. split.
  - rewrite prompt_of_length. unfold MAX_CONTEXT_LENGTH. lia.
  - destruct (prompt_of_tracked w update Htracked) as [-> _]. reflexivity.
Qed.

(** C1, as the code has it: in every world the bot can reach, a turn
    leaves the user's context with at most [MAX_CONTEXT_LENGTH] elements
    after the user's message is appended (lines 109-114), and with at
    most [MAX_CONTEXT_LENGTH + 1] elements after the whole turn, the
    assistant's reply being appended at line 133 without a trim; at both
    points element 0 is the system message. *)
Theorem context_bound_after_appends evs env update :
  let w := run evs in
  let user_id := effective_user_id update in
  (exists ctx,
      user_context (user_appended w update) !! user_id = Some ctx
      /\ (Z.of_nat (length ctx) <= MAX_CONTEXT_LENGTH)%Z
      /\ ctx !! 0 = Some system_message)
  /\ (exists ctx,
         user_context (step w (TextMessage env update)) !! user_id = Some ctx
         /\ (Z.of_nat (length ctx) <= MAX_CONTEXT_LENGTH + 1)%Z
         /\ ctx !! 0 = Some system_message).
Proof.
  intros w user_id.
  pose proof (tracked_run evs) as Htracked. fold w in Htracked.
  destruct (prompt_of_bounded w update Htracked) as [Hlen Hhead].
  split.
  - exists (prompt_of w update). rewrite user_appended_eq. cbn [user_context].
    rewrite lookup_insert_eq. auto.
  - unfold step. cbn [handler]. rewrite handle_message_eq. cbn [snd user_context].
    eexists. split; [apply lookup_insert_eq |].
    split.
    + rewrite length_app.
      destruct (turn_appended_cases env (prompt_of w update)) as [-> | [c ->]];
        cbn [length]; lia.
    + rewrite lookup_app_l; [assumption |].
      apply lookup_lt_is_Some. eauto.
Qed.

(** C1 as stated fails: after ten answered turns of one user the stored
    context holds 21 elements, one more than [MAX_CONTEXT_LENGTH]. *)
Lemma context_exceeds_bound_after_reply :
  length <$> user_context (run (exchanges 1 10)) !! 7%Z = Some 21
  /\ (MAX_CONTEXT_LENGTH <? 21)%Z = true.
Proof. split; vm_compute; reflexivity. Qed.

Lemma turn_result_calls env prompt :
  bounded_prompt (CreateCompletion prompt) ->
  Forall bounded_prompt (snd (turn_result env prompt)).
Proof.
  intros Hprompt. unfold turn_result.
  destruct (chat_action_outcome env) as [msg |].
  { repeat constructor. }
  destruct (completion_outcome env prompt) as [msg | [| [text |] others]];
    try destruct (reply_outcome env text);
    cbn [snd]; repeat (constructor; try exact Hprompt).
Qed.

Lemma bounded_prompts_step w ev :
  tracked w ->
  Forall bounded_prompt (calls w) ->
  Forall bounded_prompt (calls (step w ev)).
Proof.
  intros Htracked Hcalls. unfold step.
  destruct ev as [env u | env u | env u | env u]; cbn [handler].
  - rewrite start_eq. cbn [snd calls].
    apply Forall_app. split; [assumption | repeat constructor].
  - rewrite help_command_eq. cbn [snd calls].
    apply Forall_app. split; [assumption | repeat constructor].
  - rewrite clear_eq. cbn [snd calls].
    apply Forall_app. split; [assumption | repeat constructor].
  - rewrite handle_message_eq. cbn [snd calls].
    apply Forall_app. split; [assumption |].
    apply turn_result_calls, prompt_of_bounded, Htracked.
Qed.

Lemma bounded_prompts_run_from w evs :
  tracked w ->
  Forall bounded_prompt (calls w) ->
  Forall bounded_prompt (calls (run_from w evs)).
Proof.
  revert w. induction evs as [| ev evs IH]; intros w Htracked Hcalls; cbn.
  - assumption.
  - apply IH; [apply tracked_step | apply bounded_prompts_step]; assumption.
Qed.

(** C10: every request the bot ever sends to the completion endpoint
    carries at most [MAX_CONTEXT_LENGTH] messages, the first of which is
    the system message. *)
Theorem prompt_within_bound evs messages :
  In (CreateCompletion messages) (calls (run evs)) ->
  (Z.of_nat (length messages) <= MAX_CONTEXT_LENGTH)%Z
  /\ messages !! 0 = Some system_message.
Proof.
  intros Hin.
  pose proof (bounded_prompts_run_from initial_world evs tracked_initial
                ltac:(constructor)) as Hall.
  rewrite Forall_forall in Hall.
  apply (Hall (CreateCompletion messages)).
  apply list_elem_of_In. exact Hin.
Qed.

(** C10 on the eleventh answered turn of a user: the stored context has
    21 elements when the turn starts, and the request carries 20. *)
Lemma prompt_within_bound_witness :
  length <$> user_context (run (exchanges 1 10)) !! 7%Z = Some 21
  /\ (Z.of_nat (length (prompt_of (run (exchanges 1 10)) (from_user 7 (question 11))))
      <= MAX_CONTEXT_LENGTH)%Z
  /\ prompt_of (run (exchanges 1 10)) (from_user 7 (question 11)) !! 0
     = Some system_message.
Proof.
  split; [vm_compute; reflexivity |].
  apply (prompt_within_bound (exchanges 1 11)).
  vm_compute. do 31 right. left. reflexivity.
Defined.

(** ** The eviction order (C2) *)

(** C2, as the code has it: in every world the bot can reach, a stored
    context is the system message followed by the most recent messages
    appended for that user since the last reset, in their original
    order, the older ones having been evicted first.  It holds the 19
    most recent when the last append was a user message (the trim of
    lines 112-114 has just run) and the 20 most recent when it was an
    assistant reply (line 133 is not followed by a trim). *)
Theorem context_is_recent_history evs user_id ctx :
  user_context (run evs) !! user_id = Some ctx ->
  exists h evicted,
    appended (run evs) !! user_id = Some h
    /\ h = evicted ++ recent (window h) h
    /\ ctx = system_message :: recent (window h) h
    /\ (forall text, last h = Some (user_message text) ->
        ctx = system_message :: recent 19 h)
    /\ (forall c, last h = Some (assistant_message c) ->
        ctx = system_message :: recent 20 h).
Proof.
  intros Hctx.
  destruct (tracked_run evs _ _ Hctx) as (h & Hh & -> & _).
  destruct (recent_suffix (window h) h) as [evicted Hevicted].
  exists h, evicted. repeat split; try assumption.
  - intros text Hlast. unfold window. rewrite Hlast. reflexivity.
  - intros c Hlast. unfold window. rewrite Hlast. reflexivity.
Qed.

(** C2 at 25 appends of which the last is a user message: the context
    is the system message and the 19 most recent messages, 20 elements
    in all. *)
Lemma context_is_recent_history_witness :
  length <$> appended (run question_last) !! 7%Z = Some 25
  /\ length (default [] (user_context (run question_last) !! 7%Z)) = 20
  /\ exists h evicted,
      appended (run question_last) !! 7%Z = Some h
      /\ h = evicted ++ recent (window h) h
      /\ default [] (user_context (run question_last) !! 7%Z)
         = system_message :: recent (window h) h
      /\ (forall text, last h = Some (user_message text) ->
          default [] (user_context (run question_last) !! 7%Z)
          = system_message :: recent 19 h)
      /\ (forall c, last h = Some (assistant_message c) ->
          default [] (user_context (run question_last) !! 7%Z)
          = system_message :: recent 20 h).
Proof.
  split; [vm_compute; reflexivity |].
  split; [vm_compute; reflexivity |].
  apply (context_is_recent_history question_last 7).
  vm_compute. reflexivity.
Defined.

(** C2 as stated fails: after 25 appends of which the last is an
    assistant reply, the context is the system message and the 20 most
    recent messages, not the 19 most recent. *)
Lemma twenty_most_recent_after_reply :
  length <$> appended (run reply_last) !! 7%Z = Some 25
  /\ user_context (run reply_last) !! 7%Z
     = Some (system_message :: recent 20 (default [] (appended (run reply_last) !! 7%Z)))
  /\ bool_decide
       (user_context (run reply_last) !! 7%Z
        = Some (system_message :: recent 19 (default [] (appended (run reply_last) !! 7%Z))))
     = false.
Proof. repeat split; vm_compute; reflexivity. Qed.

(** ** Backend failures (C3, C4) *)

Lemma call_failure_backend_failure c e :
  call_failure c = Some e -> backend_failure c = Some e.
Proof. destruct c as [msg | [| [text |] others]]; cbn; congruence. Qed.

Lemma turn_result_failure env prompt e :
  chat_action_outcome env = None ->
  backend_failure (completion_outcome env prompt) = Some e ->
  turn_result env prompt
  = (raised (except_reply_outcome env (error_text e)),
     [SendChatAction; CreateCompletion prompt; ReplyText (error_text e)]).
Proof.
  intros Hchat Hfail. unfold turn_result. rewrite Hchat.
  destruct (completion_outcome env prompt) as [msg | [| [text |] others]];
    cbn in Hfail; try discriminate; injection Hfail as <-; reflexivity.
Qed.

Lemma turn_appended_call_failure env prompt e :
  call_failure (completion_outcome env prompt) = Some e ->
  turn_appended env prompt = [].
Proof.
  intros Hfail. unfold turn_appended.
  destruct (chat_action_outcome env); [reflexivity |].
  destruct (completion_outcome env prompt) as [msg | [| c others]];
    cbn in Hfail |- *; congruence.
Qed.

Lemma raised_from_telegram outcome : from_telegram (raised outcome).
Proof. destruct outcome; exact I. Qed.

Lemma turn_result_from_telegram env prompt :
  from_telegram (fst (turn_result env prompt)).
Proof.
  unfold turn_result.
  destruct (chat_action_outcome env) as [msg |]; [exact I |].
  destruct (completion_outcome env prompt) as [msg | [| [text |] others]];
    try destruct (reply_outcome env text);
    cbn [fst]; first [exact I | apply raised_from_telegram].
Qed.

(** C3, as the code has it: when the completion call raises or its
    response has no choice, no assistant message is appended.  The
    stored context is the one left by lines 104-114, that is the
    previous context with the user's message appended and the trim
    applied, so its length is the previous length plus one, capped at
    [MAX_CONTEXT_LENGTH]; and the handler sends the error text, not a
    reply. *)
Theorem failed_call_keeps_user_message w env update e :
  chat_action_outcome env = None ->
  call_failure (completion_outcome env (prompt_of w update)) = Some e ->
  let user_id := effective_user_id update in
  let w' := step w (TextMessage env update) in
  user_context w' = user_context (user_appended w update)
  /\ user_context w' !! user_id = Some (prompt_of w update)
  /\ Z.of_nat (length (prompt_of w update))
     = Z.min (Z.of_nat (length (context_or_new w user_id)) + 1) MAX_CONTEXT_LENGTH
  /\ calls w'
     = calls w ++ [SendChatAction; CreateCompletion (prompt_of w update);
                   ReplyText (error_text e)]
  /\ fst (handle_message env update w)
     = raised (except_reply_outcome env (error_text e)).
Proof.
  intros Hchat Hfail user_id w'. subst user_id w'. unfold step. cbn [handler].
  rewrite handle_message_eq, user_appended_eq. cbn [fst snd user_context calls].
  rewrite (turn_appended_call_failure _ _ _ Hfail), app_nil_r.
  rewrite (turn_result_failure _ _ _ Hchat (call_failure_backend_failure _ _ Hfail)).
  cbn [fst snd]. repeat split.
  - apply lookup_insert_eq.
  - rewrite prompt_of_length. unfold MAX_CONTEXT_LENGTH. lia.
Qed.

(** C3 on a first message sent while the backend is down. *)
Lemma failed_call_keeps_user_message_witness :
  user_context (step initial_world (lost_question 0))
  = user_context (user_appended initial_world (from_user 7 (question 0)))
  /\ user_context (step initial_world (lost_question 0)) !! 7%Z
     = Some (prompt_of initial_world (from_user 7 (question 0)))
  /\ Z.of_nat (length (prompt_of initial_world (from_user 7 (question 0))))
     = Z.min (Z.of_nat (length (context_or_new initial_world 7)) + 1) MAX_CONTEXT_LENGTH
  /\ calls (step initial_world (lost_question 0))
     = calls initial_world
       ++ [SendChatAction;
           CreateCompletion (prompt_of initial_world (from_user 7 (question 0)));
           ReplyText (error_text (APIError "Connection error."))]
  /\ fst (handle_message unreachable_backend (from_user 7 (question 0)) initial_world)
     = raised (except_reply_outcome unreachable_backend
                 (error_text (APIError "Connection error."))).
Proof.
  apply (failed_call_keeps_user_message initial_world unreachable_backend
           (from_user 7 (question 0)) (APIError "Connection error."));
    reflexivity.
Defined.

(** C3 as stated fails: user 7 holds a context of 20 elements, the
    backend call of the next turn raises and the error text is sent, and
    the context still has 20 elements, not 21. *)
Lemma failed_turn_on_full_context :
  length <$> user_context (run full_context) !! 7%Z = Some 20
  /\ completion_outcome unreachable_backend
       (prompt_of (run full_context) (from_user 7 (question 10)))
     = CompletionFails "Connection error."
  /\ last (calls (step (run full_context) (lost_question 10)))
     = Some (ReplyText (error_text (APIError "Connection error.")))
  /\ length <$> user_context (step (run full_context) (lost_question 10)) !! 7%Z
     = Some 20.
Proof. repeat split; vm_compute; reflexivity. Qed.

(** C4: whenever the completion call of a turn fails (the call raises,
    the response has no choice, or the content of its first choice is
    [None]), the exception is caught by the handler, which sends the
    error text to the user: the fixed lines of lines 142-147 followed by
    the cause summary [str(e)[:100]], a prefix of the cause of at most
    100 characters; and whatever leaves the handler was raised by
    Telegram. *)
Theorem backend_failure_is_reported w env update e :
  chat_action_outcome env = None ->
  backend_failure (completion_outcome env (prompt_of w update)) = Some e ->
  calls (step w (TextMessage env update))
  = calls w ++ [SendChatAction; CreateCompletion (prompt_of w update);
                ReplyText ("❌ Произошла ошибка при обращении к LM Studio.

Пожалуйста, убедитесь что:
1️⃣ LM Studio запущен
2️⃣ Модель загружена
3️⃣ Сервер активен (кнопка Start Server)
4️⃣ Сервер доступен по адресу http://localhost:1234

Детали ошибки: " +:+ str_prefix 100 (str e))]
  /\ py_len (str_prefix 100 (str e)) = Nat.min 100 (py_len (str e))
  /\ (exists rest, str e = str_prefix 100 (str e) +:+ rest)
  /\ fst (handle_message env update w)
     = raised (except_reply_outcome env (error_text e))
  /\ from_telegram (fst (handle_message env update w)).
Proof.
  intros Hchat Hfail. unfold step. cbn [handler].
  rewrite handle_message_eq. cbn [fst snd calls].
  rewrite (turn_result_failure _ _ _ Hchat Hfail). cbn [fst snd].
  split; [reflexivity |].
  split; [apply py_len_str_prefix |].
  split; [apply str_prefix_prefix |].
  split; [reflexivity | apply raised_from_telegram].
Qed.

(** C4 on a response without choices, with Telegram refusing the error
    text as well: the exception that leaves the handler is Telegram's. *)
Lemma backend_failure_is_reported_witness :
  calls (step initial_world (TextMessage no_choices (from_user 7 (question 0))))
  = calls initial_world
    ++ [SendChatAction;
        CreateCompletion (prompt_of initial_world (from_user 7 (question 0)));
        ReplyText ("❌ Произошла ошибка при обращении к LM Studio.

Пожалуйста, убедитесь что:
1️⃣ LM Studio запущен
2️⃣ Модель загружена
3️⃣ Сервер активен (кнопка Start Server)
4️⃣ Сервер доступен по адресу http://localhost:1234

Детали ошибки: " +:+ str_prefix 100 (str IndexError))]
  /\ py_len (str_prefix 100 (str IndexError)) = Nat.min 100 (py_len (str IndexError))
  /\ (exists rest, str IndexError = str_prefix 100 (str IndexError) +:+ rest)
  /\ fst (handle_message no_choices (from_user 7 (question 0)) initial_world)
     = raised (except_reply_outcome no_choices (error_text IndexError))
  /\ from_telegram (fst (handle_message no_choices (from_user 7 (question 0)) initial_world)).
Proof.
  apply (backend_failure_is_reported initial_world no_choices
           (from_user 7 (question 0)) IndexError);
    reflexivity.
Defined.

(** The third kind of failure is not covered by C3: when the content of
    the first choice is [None], line 133 has already appended an
    assistant message holding [None] when line 135 raises, so the error
    text is sent and the message stays in the context. *)
Lemma none_content_is_appended w env update others :
  chat_action_outcome env = None ->
  completion_outcome env (prompt_of w update) = CompletionReturns (None :: others) ->
  user_context (step w (TextMessage env update)) !! effective_user_id update
  = Some (prompt_of w update ++ [assistant_message None])
  /\ calls (step w (TextMessage env update))
     = calls w ++ [SendChatAction; CreateCompletion (prompt_of w update);
                   ReplyText (error_text TypeError)].
Proof.
  intros Hchat Hnone. unfold step. cbn [handler].
  rewrite handle_message_eq. cbn [snd user_context calls].
  unfold turn_appended, turn_result. rewrite Hchat, Hnone. cbn [reply_appended snd].
  split; [apply lookup_insert_eq | reflexivity].
Qed.

(** Whatever the collaborators do, [handle_message] returns or raises an
    exception of a Telegram call: the lookups of [user_context] and the
    index of line 113 never fail, and every exception of the [try] body
    is caught. *)
Lemma handle_message_from_telegram w env update :
  from_telegram (fst (handle_message env update w)).
Proof. rewrite handle_message_eq. apply turn_result_from_telegram. Qed.

(** ** Reset (C5, C6) *)

Lemma conversational_non_system h :
  Forall conversational h -> non_system h = length h.
Proof.
  unfold non_system. induction 1 as [| m h Hm _ IH]; [reflexivity |].
  rewrite filter_cons_True; [cbn; congruence |].
  destruct Hm as [Hm | Hm]; rewrite Hm; discriminate.
Qed.

(** When the user has a context, the count of line 78 is the number of
    stored messages other than the system message. *)
Lemma clear_counts_stored_messages evs user_id ctx :
  user_context (run evs) !! user_id = Some ctx ->
  messages_count (run evs) user_id = Z.of_nat (non_system ctx).
Proof.
  intros Hctx. unfold messages_count. rewrite Hctx. cbn [default from_option id].
  destruct (tracked_run evs _ _ Hctx) as (h & _ & -> & Hconv).
  assert (Forall conversational (recent (window h) h)) as Hrecent.
  { unfold recent. apply Forall_drop, Hconv. }
  unfold non_system. rewrite filter_cons_False by (cbn; tauto).
  fold (non_system (recent (window h) h)).
  rewrite (conversational_non_system _ Hrecent). cbn [length]. lia.
Qed.

(** C5 at the failing input: for a user without a context line 78
    computes [len([]) - 1], and [clear] reports -1 removed messages, in
    the text spelled out below. *)
Theorem clear_without_context_reports_minus_one w env update :
  user_context w !! effective_user_id update = None ->
  messages_count w (effective_user_id update) = (-1)%Z
  /\ calls (step w (ClearCommand env update))
     = calls w ++ [ReplyText (clear_text (-1))]
  /\ user_context (step w (ClearCommand env update)) !! effective_user_id update
     = Some [system_message]
  /\ clear_text (-1)
     = "🗑️ Контекст диалога очищен.

Удалено сообщений: -1

Я забыл всё, о чем мы говорили ранее. Давайте начнем сначала!".
Proof.
  intros Hnone.
  assert (messages_count w (effective_user_id update) = (-1)%Z) as Hcount.
  { unfold messages_count. rewrite Hnone. reflexivity. }
  unfold step. cbn [handler]. rewrite clear_eq. cbn [snd calls user_context].
  rewrite Hcount, lookup_insert_eq. repeat split; reflexivity.
Qed.

(** C5 at [/clear] as the first update the process receives. *)
Lemma clear_without_context_witness :
  messages_count initial_world 7 = (-1)%Z
  /\ calls (step initial_world (ClearCommand (answering "") (from_user 7 "/clear")))
     = calls initial_world ++ [ReplyText (clear_text (-1))]
  /\ user_context (step initial_world (ClearCommand (answering "") (from_user 7 "/clear")))
       !! 7%Z
     = Some [system_message]
  /\ clear_text (-1)
     = "🗑️ Контекст диалога очищен.

Удалено сообщений: -1

Я забыл всё, о чем мы говорили ранее. Давайте начнем сначала!".
Proof.
  apply (clear_without_context_reports_minus_one initial_world (answering "")
           (from_user 7 "/clear")).
  reflexivity.
Defined.

(** C6: a reset ([/start] or [/clear]) followed at once by [/clear] of
    the same user leaves, after each of the two, the context that holds
    the system message only, and the second reports 0 removed messages,
    in the text spelled out below; a second reset by [/start] leaves the
    same context as well. *)
Theorem reset_twice w by_start env1 env2 user_id name1 text1 name2 text2 :
  let w1 := step w (reset_command by_start env1 (mkUpdate user_id name1 text1)) in
  let w2 := step w1 (ClearCommand env2 (mkUpdate user_id name2 text2)) in
  let w2' := step w1 (StartCommand env2 (mkUpdate user_id name2 text2)) in
  user_context w1 !! user_id = Some [system_message]
  /\ user_context w2 !! user_id = Some [system_message]
  /\ user_context w2 = user_context w1
  /\ user_context w2' = user_context w1
  /\ messages_count w1 user_id = 0%Z
  /\ calls w2 = calls w1 ++ [ReplyText (clear_text 0)]
  /\ clear_text 0
     = "🗑️ Контекст диалога очищен.

Удалено сообщений: 0

Я забыл всё, о чем мы говорили ранее. Давайте начнем сначала!".
Proof.
  intros w1 w2 w2'.
  assert (user_context w1 = <[user_id := [system_message]]> (user_context w)) as Hw1.
  { subst w1. unfold step. destruct by_start; cbn [reset_command handler].
    - rewrite start_eq. reflexivity.
    - rewrite clear_eq. reflexivity. }
  assert (messages_count w1 user_id = 0%Z) as Hcount.
  { unfold messages_count. rewrite Hw1, lookup_insert_eq. reflexivity. }
  subst w2 w2'. unfold step. cbn [handler].
  rewrite clear_eq, start_eq. cbn [snd user_context calls effective_user_id].
  rewrite Hcount, Hw1, !insert_insert_eq, lookup_insert_eq.
  repeat split; reflexivity.
Qed.

(** ** Per-user isolation (C7) *)

Lemma step_user_context w ev :
  exists ctx,
    user_context (step w ev) = user_context w
    \/ user_context (step w ev) = <[event_user ev := ctx]> (user_context w).
Proof.
  unfold step. destruct ev as [env u | env u | env u | env u]; cbn [handler event_user].
  - rewrite start_eq. eauto.
  - rewrite help_command_eq. exists []. auto.
  - rewrite clear_eq. eauto.
  - rewrite handle_message_eq. eauto.
Qed.

(** C7: whatever handler runs for a user, the entry of every other user
    in [user_context] is the same before and after, also at the two
    intermediate points of a turn (after lines 104-105 and after lines
    109-114); so is the count [clear] would report for the other user. *)
Theorem other_users_untouched w ev other :
  other <> event_user ev ->
  user_context (step w ev) !! other = user_context w !! other
  /\ messages_count (step w ev) other = messages_count w other
  /\ user_context (snd (ensure_context (event_user ev) w)) !! other
     = user_context w !! other
  /\ match ev with
     | TextMessage _ update =>
         user_context (user_appended w update) !! other = user_context w !! other
     | _ => True
     end.
Proof.
  intros Hother.
  assert (user_context (step w ev) !! other = user_context w !! other) as Hstep.
  { destruct (step_user_context w ev) as [ctx [-> | ->]]; [reflexivity |].
    apply lookup_insert_ne. congruence. }
  split; [exact Hstep |].
  split; [unfold messages_count; rewrite Hstep; reflexivity |].
  split.
  - destruct (user_context w !! event_user ev) as [ctx |] eqn:Hctx.
    + rewrite (ensure_context_known _ _ _ Hctx). reflexivity.
    + rewrite (ensure_context_new _ _ Hctx). cbn [snd user_context].
      apply lookup_insert_ne. congruence.
  - destruct ev as [env u | env u | env u | env u]; try exact I.
    rewrite user_appended_eq. cbn [user_context].
    apply lookup_insert_ne. cbn in Hother. congruence.
Qed.

(** C7 on a turn of user 8 in a world where user 7 holds a context. *)
Lemma other_users_untouched_witness :
  user_context (step (run reply_last) (TextMessage (answering "hi") (from_user 8 "hello")))
    !! 7%Z
  = user_context (run reply_last) !! 7%Z
  /\ messages_count
       (step (run reply_last) (TextMessage (answering "hi") (from_user 8 "hello"))) 7
     = messages_count (run reply_last) 7
  /\ user_context (snd (ensure_context 8 (run reply_last))) !! 7%Z
     = user_context (run reply_last) !! 7%Z
  /\ user_context (user_appended (run reply_last) (from_user 8 "hello")) !! 7%Z
     = user_context (run reply_last) !! 7%Z.
Proof.
  apply (other_users_untouched (run reply_last)
           (TextMessage (answering "hi") (from_user 8 "hello")) 7).
  cbn. lia.
Defined.

(** ** The end-to-end scenario (C8) *)

(** C8: a user without a context sends "hello" and the backend answers
    "hi there".  After lines 104-114 the context is the system message
    and the user's message; after the turn it also holds the assistant's
    reply, which is what the handler sent; a following [/clear] of the
    same user reports 2 removed messages, in the text spelled out
    below, and leaves the system message alone. *)
Theorem hello_scenario w env env' update update' others :
  user_context w !! effective_user_id update = None ->
  message_text update = "hello" ->
  chat_action_outcome env = None ->
  completion_outcome env [system_message; user_message "hello"]
  = CompletionReturns (Some "hi there" :: others) ->
  reply_outcome env "hi there" = None ->
  effective_user_id update' = effective_user_id update ->
  let user_id := effective_user_id update in
  let w1 := user_appended w update in
  let w2 := step w (TextMessage env update) in
  let w3 := step w2 (ClearCommand env' update') in
  user_context w1 !! user_id = Some [system_message; user_message "hello"]
  /\ user_context w2 !! user_id
     = Some [system_message; user_message "hello"; assistant_message (Some "hi there")]
  /\ fst (handle_message env update w) = Returns tt
  /\ calls w2
     = calls w ++ [SendChatAction;
                   CreateCompletion [system_message; user_message "hello"];
                   ReplyText "hi there"]
  /\ calls w3 = calls w2 ++ [ReplyText (clear_text 2)]
  /\ user_context w3 !! user_id = Some [system_message]
  /\ clear_text 2
     = "🗑️ Контекст диалога очищен.

Удалено сообщений: 2

Я забыл всё, о чем мы говорили ранее. Давайте начнем сначала!".
Proof.
  intros Hnew Htext Hchat Hcompletion Hreply Hsame user_id w1 w2 w3.
  assert (prompt_of w update = [system_message; user_message "hello"]) as Hprompt.
  { unfold prompt_of, context_or_new. rewrite Hnew, Htext. reflexivity. }
  assert (turn_result env (prompt_of w update)
          = (Returns tt,
             [SendChatAction; CreateCompletion (prompt_of w update);
              ReplyText "hi there"])) as Hresult.
  { unfold turn_result. rewrite Hchat, Hprompt, Hcompletion, Hreply. reflexivity. }
  assert (turn_appended env (prompt_of w update)
          = [assistant_message (Some "hi there")]) as Happended.
  { unfold turn_appended. rewrite Hchat, Hprompt, Hcompletion. reflexivity. }
  assert (user_context w2 !! user_id
          = Some [system_message; user_message "hello";
                  assistant_message (Some "hi there")]) as Hw2.
  { subst w2. unfold step. cbn [handler]. rewrite handle_message_eq.
    cbn [snd user_context]. rewrite lookup_insert_eq, Happended, Hprompt.
    reflexivity. }
  split.
  { subst w1. rewrite user_appended_eq. cbn [user_context].
    rewrite lookup_insert_eq, Hprompt. reflexivity. }
  split; [exact Hw2 |].
  split.
  { rewrite handle_message_eq. cbn [fst]. rewrite Hresult. reflexivity. }
  split.
  { subst w2. unfold step. cbn [handler]. rewrite handle_message_eq.
    cbn [snd calls]. rewrite Hresult, Hprompt. reflexivity. }
  subst w3. unfold step at 1 2. cbn [handler]. rewrite clear_eq.
  cbn [snd calls user_context]. rewrite Hsame. fold user_id.
  split.
  { unfold messages_count. rewrite Hw2. reflexivity. }
  split; [apply lookup_insert_eq | reflexivity].
Qed.

(** C8 from the start of the process. *)
Lemma hello_scenario_witness :
  user_context (user_appended initial_world (from_user 7 "hello")) !! 7%Z
  = Some [system_message; user_message "hello"]
  /\ user_context (step initial_world (TextMessage (answering "hi there") (from_user 7 "hello")))
       !! 7%Z
     = Some [system_message; user_message "hello"; assistant_message (Some "hi there")]
  /\ fst (handle_message (answering "hi there") (from_user 7 "hello") initial_world)
     = Returns tt
  /\ calls (step initial_world (TextMessage (answering "hi there") (from_user 7 "hello")))
     = calls initial_world
       ++ [SendChatAction;
           CreateCompletion [system_message; user_message "hello"];
           ReplyText "hi there"]
  /\ calls (step (step initial_world
                    (TextMessage (answering "hi there") (from_user 7 "hello")))
              (ClearCommand (answering "") (from_user 7 "/clear")))
     = calls (step initial_world (TextMessage (answering "hi there") (from_user 7 "hello")))
       ++ [ReplyText (clear_text 2)]
  /\ user_context (step (step initial_world
                           (TextMessage (answering "hi there") (from_user 7 "hello")))
                     (ClearCommand (answering "") (from_user 7 "/clear")))
       !! 7%Z
     = Some [system_message]
  /\ clear_text 2
     = "🗑️ Контекст диалога очищен.

Удалено сообщений: 2

Я забыл всё, о чем мы говорили ранее. Давайте начнем сначала!".
Proof.
  apply (hello_scenario initial_world (answering "hi there") (answering "")
           (from_user 7 "hello") (from_user 7 "/clear") []);
    reflexivity.
Defined.

(** * Further properties of the handlers *)

(** ** What leaves a handler *)

(** X1: what leaves a handler.  On an update that carries a message
    and a user, whatever the collaborators answer and whatever the
    dictionary holds, a handler returns or raises the exception of a
    Telegram call.  On any update, it returns, raises the exception of a
    Telegram call, or raises [AttributeError], the latter only when the
    update has no message or no user.  The dictionary lookups of lines
    109-125, the index of line 113 and everything raised inside the
    [try] of [handle_message] never reach the caller. *)
Theorem handlers_raise_only_telegram_errors w ev h env raw :
  from_telegram (fst (handler ev w))
  /\ match fst (invoke h env raw w) with
     | Returns _ | Raises (TelegramError _) => True
     | Raises (AttributeError _) => raw_user raw = None \/ raw_text raw = None
     | Raises _ => False
     end.
Proof.
  assert (forall ev', from_telegram (fst (handler ev' w))) as Hhandler.
  { intros [env' u | env' u | env' u | env' u]; cbn [handler].
    - rewrite start_eq. apply raised_from_telegram.
    - rewrite help_command_eq. apply raised_from_telegram.
    - rewrite clear_eq. apply raised_from_telegram.
    - rewrite handle_message_eq. apply turn_result_from_telegram. }
  split; [apply Hhandler |].
  assert (forall (r : result unit) (P : Prop),
             from_telegram r ->
             match r with
             | Returns _ | Raises (TelegramError _) => True
             | Raises (AttributeError _) => P
             | Raises _ => False
             end) as Hclass.
  { intros [[] | []] P Hr; solve [exact I | destruct Hr]. }
  destruct raw as [[[user_id name] |] [text |]];
    destruct h; cbn [invoke raw_user raw_text].
  all: try (apply Hclass;
            first [ apply (Hhandler (StartCommand env (mkUpdate user_id name text)))
                  | apply (Hhandler (ClearCommand env (mkUpdate user_id name text)))
                  | apply (Hhandler (TextMessage env (mkUpdate user_id name text)))
                  | apply (Hhandler (HelpCommand env (mkUpdate 0 EmptyString EmptyString))) ]).
  all: unfold count_messages, get_context_or_empty, new_context; unfold_py;
    cbn [fst]; auto.
Qed.

(** X15: a command on an update without a message.  When
    [update.message] is [None], as for an edited message, [start] and
    [clear] still replace the user's context by the system message
    alone, then raise [AttributeError] at [update.message.reply_text]
    without any call to Telegram, so that the user is told nothing and
    the request of the user's next turn holds the system message and the
    new message only; [help_command] and [handle_message] raise before
    any change. *)
Theorem command_without_message_resets_silently w env env' user_id name name' text' :
  let raw := mkRawUpdate (Some (user_id, name)) None in
  let w1 := snd (invoke OnStart env raw w) in
  let w2 := snd (invoke OnClear env raw w) in
  fst (invoke OnStart env raw w) = Raises (AttributeError "reply_text")
  /\ fst (invoke OnClear env raw w) = Raises (AttributeError "reply_text")
  /\ user_context w1 = <[user_id := [system_message]]> (user_context w)
  /\ user_context w2 = <[user_id := [system_message]]> (user_context w)
  /\ calls w1 = calls w
  /\ calls w2 = calls w
  /\ calls (step w2 (TextMessage env' (mkUpdate user_id name' text')))
     = calls w ++ snd (turn_result env' [system_message; user_message text'])
  /\ invoke OnHelp env raw w = (Raises (AttributeError "reply_text"), w)
  /\ invoke OnText env raw w = (Raises (AttributeError "text"), w).
Proof.
  intros raw w1 w2.
  assert (user_context w2 = <[user_id := [system_message]]> (user_context w)) as Hw2
      by reflexivity.
  assert (calls w2 = calls w) as Hcalls by reflexivity.
  repeat split.
  unfold step. cbn [handler]. rewrite handle_message_eq. cbn [snd calls].
  rewrite Hcalls. f_equal. f_equal.
  unfold prompt_of, context_or_new. cbn [effective_user_id message_text].
  rewrite Hw2, lookup_insert_eq. reflexivity.
Qed.

(** ** The turn, case by case *)

Lemma prompt_of_last w update :
  last (prompt_of w update) = Some (user_message (message_text update)).
Proof.
  unfold prompt_of.
  destruct (context_or_new w (effective_user_id update)) as [| first rest].
  - reflexivity.
  - cbn [app keep_recent]. change 19 with (S 18). rewrite recent_snoc.
    rewrite app_comm_cons. apply last_snoc.
Qed.

(** X2: the calls of a turn.  The typing indicator comes first; when it
    is accepted the backend is asked exactly once, with the stored
    context as lines 104-114 leave it, whose last message is the one the
    user has just sent (the trim never evicts the new message); then one
    or two texts are sent to the user.  When the indicator is refused
    nothing else is called. *)
Theorem calls_of_a_turn w env update :
  exists ctx rest,
    user_context (user_appended w update) !! effective_user_id update = Some ctx
    /\ last ctx = Some (user_message (message_text update))
    /\ calls (step w (TextMessage env update)) = calls w ++ SendChatAction :: rest
    /\ match chat_action_outcome env with
       | None =>
           exists replies,
             rest = CreateCompletion ctx :: replies
             /\ Forall (fun c => is_reply c = true) replies
             /\ 1 <= length replies <= 2
       | Some _ => rest = []
       end.
Proof.
  exists (prompt_of w update), (tail (snd (turn_result env (prompt_of w update)))).
  rewrite user_appended_eq. cbn [user_context]. rewrite lookup_insert_eq.
  split; [reflexivity |].
  split; [apply prompt_of_last |].
  unfold step. cbn [handler]. rewrite handle_message_eq. cbn [snd calls].
  unfold turn_result. destruct (chat_action_outcome env) as [msg |].
  { split; reflexivity. }
  destruct (completion_outcome env (prompt_of w update)) as [msg | [| [text |] others]];
    try destruct (reply_outcome env text);
    cbn [snd tail]; (split; [reflexivity |]); eexists; (split; [reflexivity |]);
    (split; [repeat constructor | cbn [length]; lia]).
Qed.

(** X3: when the typing indicator of line 117 is refused, the exception
    leaves the handler: the backend is not called and nothing is sent to
    the user, but the user's message has already been stored. *)
Theorem typing_failure_stops_the_turn w env update msg :
  chat_action_outcome env = Some msg ->
  fst (handle_message env update w) = Raises (TelegramError msg)
  /\ calls (step w (TextMessage env update)) = calls w ++ [SendChatAction]
  /\ user_context (step w (TextMessage env update))
     = user_context (user_appended w update)
  /\ exists ctx,
      user_context (step w (TextMessage env update)) !! effective_user_id update
      = Some ctx
      /\ last ctx = Some (user_message (message_text update)).
Proof.
  intros Hchat. unfold step. cbn [handler].
  rewrite handle_message_eq, user_appended_eq. cbn [fst snd user_context calls].
  unfold turn_result, turn_appended. rewrite Hchat. cbn [fst snd].
  rewrite app_nil_r. repeat split.
  exists (prompt_of w update). split; [apply lookup_insert_eq | apply prompt_of_last].
Qed.

Lemma typing_failure_stops_the_turn_witness :
  fst (handle_message typing_refused (from_user 7 "hello") initial_world)
  = Raises (TelegramError "Timed out")
  /\ calls (step initial_world (TextMessage typing_refused (from_user 7 "hello")))
     = calls initial_world ++ [SendChatAction]
  /\ user_context (step initial_world (TextMessage typing_refused (from_user 7 "hello")))
     = user_context (user_appended initial_world (from_user 7 "hello"))
  /\ exists ctx,
      user_context (step initial_world (TextMessage typing_refused (from_user 7 "hello")))
        !! effective_user_id (from_user 7 "hello")
      = Some ctx
      /\ last ctx = Some (user_message (message_text (from_user 7 "hello"))).
Proof.
  apply (typing_failure_stops_the_turn initial_world typing_refused
           (from_user 7 "hello") "Timed out").
  reflexivity.
Defined.

(** X4: an answered turn, in any world.  When the typing indicator is
    accepted, the response has a first choice with a text and Telegram
    accepts that text, the handler returns, the context is the request
    followed by the assistant's message, and the calls are the typing
    indicator, one request and the reply; the other choices of the
    response are not used. *)
Theorem answered_turn w env update text others :
  chat_action_outcome env = None ->
  completion_outcome env (prompt_of w update)
  = CompletionReturns (Some text :: others) ->
  reply_outcome env text = None ->
  fst (handle_message env update w) = Returns tt
  /\ user_context (user_appended w update) !! effective_user_id update
     = Some (prompt_of w update)
  /\ user_context (step w (TextMessage env update)) !! effective_user_id update
     = Some (prompt_of w update ++ [assistant_message (Some text)])
  /\ calls (step w (TextMessage env update))
     = calls w ++ [SendChatAction; CreateCompletion (prompt_of w update);
                   ReplyText text].
Proof.
  intros Hchat Hcompletion Hreply. unfold step. cbn [handler].
  rewrite handle_message_eq, user_appended_eq. cbn [fst snd user_context calls].
  unfold turn_result, turn_appended. rewrite Hchat, Hcompletion, Hreply.
  cbn [fst snd reply_appended]. rewrite !lookup_insert_eq. auto.
Qed.

Lemma answered_turn_witness :
  fst (handle_message (answering (answer 13)) (from_user 7 (question 13)) (run reply_last))
  = Returns tt
  /\ user_context (user_appended (run reply_last) (from_user 7 (question 13)))
       !! effective_user_id (from_user 7 (question 13))
     = Some (prompt_of (run reply_last) (from_user 7 (question 13)))
  /\ user_context (step (run reply_last)
                     (TextMessage (answering (answer 13)) (from_user 7 (question 13))))
       !! effective_user_id (from_user 7 (question 13))
     = Some (prompt_of (run reply_last) (from_user 7 (question 13))
             ++ [assistant_message (Some (answer 13))])
  /\ calls (step (run reply_last)
              (TextMessage (answering (answer 13)) (from_user 7 (question 13))))
     = calls (run reply_last)
       ++ [SendChatAction;
           CreateCompletion (prompt_of (run reply_last) (from_user 7 (question 13)));
           ReplyText (answer 13)].
Proof.
  apply (answered_turn (run reply_last) (answering (answer 13))
           (from_user 7 (question 13)) (answer 13) []);
    reflexivity.
Defined.

(** X5: when the backend answers but Telegram refuses the answer, the
    [except] branch catches Telegram's exception: the user is sent the
    backend error text, the fixed lines of lines 142-147 followed by the
    first 100 characters of Telegram's message, and the assistant's
    message, appended at line 133 before the reply was sent, stays in
    the context. *)
Theorem refused_reply_is_reported_as_backend_error w env update text others msg :
  chat_action_outcome env = None ->
  completion_outcome env (prompt_of w update)
  = CompletionReturns (Some text :: others) ->
  reply_outcome env text = Some msg ->
  user_context (step w (TextMessage env update)) !! effective_user_id update
  = Some (prompt_of w update ++ [assistant_message (Some text)])
  /\ calls (step w (TextMessage env update))
     = calls w ++ [SendChatAction; CreateCompletion (prompt_of w update);
                   ReplyText text;
                   ReplyText ("❌ Произошла ошибка при обращении к LM Studio.

Пожалуйста, убедитесь что:
1️⃣ LM Studio запущен
2️⃣ Модель загружена
3️⃣ Сервер активен (кнопка Start Server)
4️⃣ Сервер доступен по адресу http://localhost:1234

Детали ошибки: " +:+ str_prefix 100 msg)]
  /\ py_len (str_prefix 100 msg) = Nat.min 100 (py_len msg)
  /\ (exists rest, msg = str_prefix 100 msg +:+ rest)
  /\ fst (handle_message env update w)
     = raised (except_reply_outcome env (error_text (TelegramError msg))).
Proof.
  intros Hchat Hcompletion Hreply. unfold step. cbn [handler].
  rewrite handle_message_eq. cbn [fst snd user_context calls].
  unfold turn_result, turn_appended. rewrite Hchat, Hcompletion, Hreply.
  cbn [fst snd reply_appended]. rewrite lookup_insert_eq.
  split; [reflexivity |].
  split; [reflexivity |].
  split; [apply py_len_str_prefix |].
  split; [apply str_prefix_prefix | reflexivity].
Qed.

Lemma refused_reply_witness :
  user_context (step initial_world (TextMessage reply_refused (from_user 7 "hello")))
    !! effective_user_id (from_user 7 "hello")
  = Some (prompt_of initial_world (from_user 7 "hello")
          ++ [assistant_message (Some "hi there")])
  /\ calls (step initial_world (TextMessage reply_refused (from_user 7 "hello")))
     = calls initial_world
       ++ [SendChatAction;
           CreateCompletion (prompt_of initial_world (from_user 7 "hello"));
           ReplyText "hi there";
           ReplyText ("❌ Произошла ошибка при обращении к LM Studio.

Пожалуйста, убедитесь что:
1️⃣ LM Studio запущен
2️⃣ Модель загружена
3️⃣ Сервер активен (кнопка Start Server)
4️⃣ Сервер доступен по адресу http://localhost:1234

Детали ошибки: " +:+ str_prefix 100 "Message is too long")]
  /\ py_len (str_prefix 100 "Message is too long")
     = Nat.min 100 (py_len "Message is too long")
  /\ (exists rest, "Message is too long" = str_prefix 100 "Message is too long" +:+ rest)
  /\ fst (handle_message reply_refused (from_user 7 "hello") initial_world)
     = raised (except_reply_outcome reply_refused
                 (error_text (TelegramError "Message is too long"))).
Proof.
  apply (refused_reply_is_reported_as_backend_error initial_world reply_refused
           (from_user 7 "hello") "hi there" [] "Message is too long");
    reflexivity.
Defined.

(** X6: when the first choice of the response has content [None], line
    133 appends an assistant message holding [None] before the logging
    call of line 135 raises; the user is sent the error text, and the
    message stays in the context, so the next request carries it. *)
Theorem none_content_stays_in_context w env update others env' text' :
  chat_action_outcome env = None ->
  completion_outcome env (prompt_of w update) = CompletionReturns (None :: others) ->
  let user_id := effective_user_id update in
  let w' := step w (TextMessage env update) in
  user_context w' !! user_id = Some (prompt_of w update ++ [assistant_message None])
  /\ calls w'
     = calls w ++ [SendChatAction; CreateCompletion (prompt_of w update);
                   ReplyText (error_text TypeError)]
  /\ fst (handle_message env update w)
     = raised (except_reply_outcome env (error_text TypeError))
  /\ prompt_of w' (mkUpdate user_id (first_name update) text')
     = keep_recent (prompt_of w update
                    ++ [assistant_message None; user_message text'])
  /\ calls (step w' (TextMessage env' (mkUpdate user_id (first_name update) text')))
     = calls w'
       ++ snd (turn_result env'
                 (keep_recent (prompt_of w update
                               ++ [assistant_message None; user_message text']))).
Proof.
  intros Hchat Hnone user_id w'.
  destruct (none_content_is_appended w env update others Hchat Hnone) as [Hctx Hcalls].
  fold user_id w' in Hctx, Hcalls.
  assert (prompt_of w' (mkUpdate user_id (first_name update) text')
          = keep_recent (prompt_of w update
                         ++ [assistant_message None; user_message text'])) as Hnext.
  { unfold prompt_of at 1, context_or_new. cbn [effective_user_id message_text].
    rewrite Hctx. cbn [default from_option id]. rewrite <- app_assoc. reflexivity. }
  split; [exact Hctx |]. split; [exact Hcalls |].
  split.
  { rewrite handle_message_eq. cbn [fst].
    unfold turn_result. rewrite Hchat, Hnone. reflexivity. }
  split; [exact Hnext |].
  unfold step at 1. cbn [handler]. rewrite handle_message_eq. cbn [snd calls].
  rewrite Hnext. reflexivity.
Qed.

Lemma none_content_witness :
  user_context (step initial_world (TextMessage empty_choice (from_user 7 "hello"))) !! 7%Z
  = Some (prompt_of initial_world (from_user 7 "hello") ++ [assistant_message None])
  /\ calls (step initial_world (TextMessage empty_choice (from_user 7 "hello")))
     = calls initial_world
       ++ [SendChatAction;
           CreateCompletion (prompt_of initial_world (from_user 7 "hello"));
           ReplyText (error_text TypeError)]
  /\ fst (handle_message empty_choice (from_user 7 "hello") initial_world)
     = raised (except_reply_outcome empty_choice (error_text TypeError))
  /\ prompt_of (step initial_world (TextMessage empty_choice (from_user 7 "hello")))
       (mkUpdate 7 "Ann" "again")
     = keep_recent (prompt_of initial_world (from_user 7 "hello")
                    ++ [assistant_message None; user_message "again"])
  /\ calls (step (step initial_world (TextMessage empty_choice (from_user 7 "hello")))
              (TextMessage (answering "hi") (mkUpdate 7 "Ann" "again")))
     = calls (step initial_world (TextMessage empty_choice (from_user 7 "hello")))
       ++ snd (turn_result (answering "hi")
                 (keep_recent (prompt_of initial_world (from_user 7 "hello")
                               ++ [assistant_message None; user_message "again"]))).
Proof.
  apply (none_content_stays_in_context initial_world empty_choice
           (from_user 7 "hello") [] (answering "hi") "again");
    reflexivity.
Defined.

(** ** How turns and resets compose *)

Lemma failed_turn_context w env update e :
  chat_action_outcome env = None ->
  call_failure (completion_outcome env (prompt_of w update)) = Some e ->
  user_context (step w (TextMessage env update)) !! effective_user_id update
  = Some (prompt_of w update)
  /\ calls (step w (TextMessage env update))
     = calls w ++ [SendChatAction; CreateCompletion (prompt_of w update);
                   ReplyText (error_text e)].
Proof.
  intros Hchat Hfail. unfold step. cbn [handler].
  rewrite handle_message_eq. cbn [snd user_context calls].
  rewrite (turn_appended_call_failure _ _ _ Hfail), app_nil_r.
  rewrite (turn_result_failure _ _ _ Hchat (call_failure_backend_failure _ _ Hfail)).
  split; [apply lookup_insert_eq | reflexivity].
Qed.

(** X7: a message lost to a backend failure is sent again with the next
    one.  When a turn fails because the call raises or the response has
    no choice, and the context is short enough for no trim to occur, the
    request of the user's next turn is the earlier context followed by
    both user messages, with no assistant message between them. *)
Theorem next_request_repeats_lost_message
    w env env' user_id name text name' text' e :
  chat_action_outcome env = None ->
  call_failure (completion_outcome env (prompt_of w (mkUpdate user_id name text)))
  = Some e ->
  length (context_or_new w user_id) + 2 <= 20 ->
  let w' := step w (TextMessage env (mkUpdate user_id name text)) in
  user_context (user_appended w' (mkUpdate user_id name' text')) !! user_id
  = Some (context_or_new w user_id ++ [user_message text; user_message text'])
  /\ calls (step w' (TextMessage env' (mkUpdate user_id name' text')))
     = calls w'
       ++ snd (turn_result env'
                 (context_or_new w user_id ++ [user_message text; user_message text'])).
Proof.
  intros Hchat Hfail Hshort w'.
  destruct (failed_turn_context w env (mkUpdate user_id name text) e Hchat Hfail)
    as [Hctx _].
  fold w' in Hctx. cbn [effective_user_id] in Hctx.
  assert (prompt_of w (mkUpdate user_id name text)
          = context_or_new w user_id ++ [user_message text]) as Hfirst.
  { unfold prompt_of. cbn [effective_user_id message_text].
    destruct (context_or_new w user_id) as [| first rest]; [reflexivity |].
    cbn [app keep_recent]. rewrite recent_all; [reflexivity |].
    rewrite length_app. cbn [length] in *. lia. }
  assert (prompt_of w' (mkUpdate user_id name' text')
          = context_or_new w user_id ++ [user_message text; user_message text'])
    as Hsecond.
  { unfold prompt_of at 1, context_or_new at 1. cbn [effective_user_id message_text].
    rewrite Hctx, Hfirst. cbn [default from_option id]. rewrite <- app_assoc.
    cbn [app].
    destruct (context_or_new w user_id) as [| first rest]; [reflexivity |].
    cbn [app keep_recent]. rewrite recent_all; [reflexivity |].
    rewrite length_app. cbn [length] in *. lia. }
  split.
  - rewrite user_appended_eq. cbn [user_context effective_user_id].
    rewrite lookup_insert_eq, Hsecond. reflexivity.
  - unfold step at 1. cbn [handler]. rewrite handle_message_eq. cbn [snd calls].
    rewrite Hsecond. reflexivity.
Qed.

Lemma next_request_repeats_lost_message_witness :
  user_context
    (user_appended
       (step initial_world (TextMessage unreachable_backend (mkUpdate 7 "Ann" "first")))
       (mkUpdate 7 "Ann" "second")) !! 7%Z
  = Some (context_or_new initial_world 7 ++ [user_message "first"; user_message "second"])
  /\ calls
       (step (step initial_world
                (TextMessage unreachable_backend (mkUpdate 7 "Ann" "first")))
          (TextMessage (answering "hi") (mkUpdate 7 "Ann" "second")))
     = calls (step initial_world
                (TextMessage unreachable_backend (mkUpdate 7 "Ann" "first")))
       ++ snd (turn_result (answering "hi")
                 (context_or_new initial_world 7
                  ++ [user_message "first"; user_message "second"])).
Proof.
  apply (next_request_repeats_lost_message initial_world unreachable_backend
           (answering "hi") 7 "Ann" "first" "Ann" "second"
           (APIError "Connection error."));
    [reflexivity | reflexivity | vm_compute; lia].
Defined.

(** X8: a reset forgets the conversation.  After [/start] or [/clear],
    whatever the user's context held, the request of the user's next
    turn consists of the system message and the new message only. *)
Theorem request_after_reset
    w by_start env0 env user_id name0 text0 name text :
  let w1 := step w (reset_command by_start env0 (mkUpdate user_id name0 text0)) in
  user_context (user_appended w1 (mkUpdate user_id name text)) !! user_id
  = Some [system_message; user_message text]
  /\ calls (step w1 (TextMessage env (mkUpdate user_id name text)))
     = calls w1 ++ snd (turn_result env [system_message; user_message text]).
Proof.
  intros w1.
  assert (user_context w1 !! user_id = Some [system_message]) as Hw1.
  { subst w1. unfold step. destruct by_start; cbn [reset_command handler].
    - rewrite start_eq. apply lookup_insert_eq.
    - rewrite clear_eq. apply lookup_insert_eq. }
  assert (prompt_of w1 (mkUpdate user_id name text)
          = [system_message; user_message text]) as Hprompt.
  { unfold prompt_of, context_or_new. cbn [effective_user_id message_text].
    rewrite Hw1. reflexivity. }
  split.
  - rewrite user_appended_eq. cbn [user_context effective_user_id].
    rewrite lookup_insert_eq, Hprompt. reflexivity.
  - unfold step at 1. cbn [handler]. rewrite handle_message_eq. cbn [snd calls].
    rewrite Hprompt. reflexivity.
Qed.

(** ** What the store holds *)

(** The decimal numeral printed for an integer reads back as it. *)
Lemma string_of_Z_reads_back z :
  Z.of_int <$> NilZero.int_of_string (string_of_Z z) = Some z.
Proof.
  unfold string_of_Z.
  rewrite NilZero.isi.
  - cbn [fmap option_fmap option_map]. rewrite DecimalZ.of_to. reflexivity.
  - destruct z as [| p | p]; cbn; try discriminate.
    intros [= H]. exact (DecimalPos.Unsigned.to_uint_nonnil p H).
  - destruct z as [| p | p]; cbn; try discriminate.
    intros [= H]. exact (DecimalPos.Unsigned.to_uint_nonnil p H).
Qed.

(** X9: for a user who has a context, in any world the bot can reach,
    the number [clear] prints in its reply (the decimal numeral between
    the fixed lines of lines 86-88, which reads back as that number) is
    the number of stored messages that are not the system message, that
    is the length of the context minus one; it lies between 0 and
    [MAX_CONTEXT_LENGTH]. *)
Theorem clear_reports_stored_messages evs env update ctx :
  user_context (run evs) !! effective_user_id update = Some ctx ->
  calls (step (run evs) (ClearCommand env update))
  = calls (run evs)
    ++ [ReplyText ("🗑️ Контекст диалога очищен.

Удалено сообщений: " +:+ string_of_Z (Z.of_nat (non_system ctx)) +:+ "

Я забыл всё, о чем мы говорили ранее. Давайте начнем сначала!")]
  /\ Z.of_int <$> NilZero.int_of_string (string_of_Z (Z.of_nat (non_system ctx)))
     = Some (Z.of_nat (non_system ctx))
  /\ Z.of_nat (non_system ctx) = (Z.of_nat (length ctx) - 1)%Z
  /\ (0 <= Z.of_nat (non_system ctx) <= MAX_CONTEXT_LENGTH)%Z.
Proof.
  intros Hctx.
  pose proof (clear_counts_stored_messages evs _ _ Hctx) as Hcount.
  unfold step. cbn [handler]. rewrite clear_eq. cbn [snd calls]. rewrite Hcount.
  split; [reflexivity |].
  split; [apply string_of_Z_reads_back |].
  unfold messages_count in Hcount. rewrite Hctx in Hcount.
  cbn [default from_option id] in Hcount.
  split; [lia |].
  destruct (tracked_run evs _ _ Hctx) as (h & _ & Hshape & _).
  assert (length ctx <= 21) as Hlen.
  { rewrite Hshape. cbn [length]. rewrite recent_length.
    pose proof (window_bounds h). lia. }
  unfold MAX_CONTEXT_LENGTH. lia.
Qed.

(** X9 on a context of 21 elements: the reply says 20. *)
Lemma clear_reports_stored_messages_witness :
  string_of_Z (Z.of_nat (non_system (default [] (user_context (run reply_last) !! 7%Z))))
  = "20"
  /\ calls (step (run reply_last) (ClearCommand (answering "") (from_user 7 "/clear")))
     = calls (run reply_last)
       ++ [ReplyText
             ("🗑️ Контекст диалога очищен.

Удалено сообщений: "
              +:+ string_of_Z
                    (Z.of_nat (non_system (default [] (user_context (run reply_last) !! 7%Z))))
              +:+ "

Я забыл всё, о чем мы говорили ранее. Давайте начнем сначала!")]
  /\ Z.of_int
       <$> NilZero.int_of_string
             (string_of_Z
                (Z.of_nat (non_system (default [] (user_context (run reply_last) !! 7%Z)))))
     = Some (Z.of_nat (non_system (default [] (user_context (run reply_last) !! 7%Z))))
  /\ Z.of_nat (non_system (default [] (user_context (run reply_last) !! 7%Z)))
     = (Z.of_nat (length (default [] (user_context (run reply_last) !! 7%Z))) - 1)%Z
  /\ (0 <= Z.of_nat (non_system (default [] (user_context (run reply_last) !! 7%Z)))
      <= MAX_CONTEXT_LENGTH)%Z.
Proof.
  split; [vm_compute; reflexivity |].
  apply (clear_reports_stored_messages reply_last (answering "") (from_user 7 "/clear")).
  vm_compute. reflexivity.
Defined.

(** X10: in any world the bot can reach, a stored context holds the
    system message once, at index 0: every element after it has role
    "user" or "assistant". *)
Theorem stored_roles evs user_id ctx :
  user_context (run evs) !! user_id = Some ctx ->
  exists rest,
    ctx = system_message :: rest
    /\ Forall conversational rest
    /\ Forall (fun m => role m <> "system") rest
    /\ non_system ctx = length rest.
Proof.
  intros Hctx.
  destruct (tracked_run evs _ _ Hctx) as (h & _ & -> & Hconv).
  assert (Forall conversational (recent (window h) h)) as Hrecent.
  { unfold recent. apply Forall_drop, Hconv. }
  exists (recent (window h) h). split; [reflexivity |].
  split; [exact Hrecent |].
  split.
  - eapply Forall_impl; [exact Hrecent |].
    intros m [Hm | Hm]; rewrite Hm; discriminate.
  - unfold non_system. rewrite filter_cons_False by (cbn; tauto).
    apply (conversational_non_system _ Hrecent).
Qed.

Lemma stored_roles_witness :
  exists rest,
    default [] (user_context (run reply_last) !! 7%Z) = system_message :: rest
    /\ Forall conversational rest
    /\ Forall (fun m => role m <> "system") rest
    /\ non_system (default [] (user_context (run reply_last) !! 7%Z)) = length rest.
Proof.
  apply (stored_roles reply_last 7).
  vm_compute. reflexivity.
Defined.

Lemma step_dom w ev :
  dom (user_context (step w ev)) = dom (user_context w) ∪ known_users [ev].
Proof.
  unfold step. destruct ev as [env u | env u | env u | env u];
    cbn [handler known_users event_user].
  - rewrite start_eq. cbn [snd user_context].
    rewrite dom_insert_L, (right_id_L ∅ (∪)). apply (comm_L (∪)).
  - rewrite help_command_eq. cbn [snd user_context].
    rewrite (right_id_L ∅ (∪)). reflexivity.
  - rewrite clear_eq. cbn [snd user_context].
    rewrite dom_insert_L, (right_id_L ∅ (∪)). apply (comm_L (∪)).
  - rewrite handle_message_eq. cbn [snd user_context].
    rewrite dom_insert_L, (right_id_L ∅ (∪)). apply (comm_L (∪)).
Qed.

Lemma known_users_cons ev evs :
  known_users (ev :: evs) = known_users [ev] ∪ known_users evs.
Proof.
  destruct ev; cbn [known_users];
    rewrite ?(right_id_L ∅ (∪)), ?(left_id_L ∅ (∪)); reflexivity.
Qed.

Lemma run_from_dom w evs :
  dom (user_context (run_from w evs)) = dom (user_context w) ∪ known_users evs.
Proof.
  revert w. induction evs as [| ev evs IH]; intros w.
  - cbn. rewrite (right_id_L ∅ (∪)). reflexivity.
  - cbn [run_from fold_left]. fold (run_from (step w ev) evs).
    rewrite IH, step_dom, (known_users_cons ev evs).
    symmetry. apply (assoc_L (∪)).
Qed.

(** X11: entries of [user_context] are created by [/start], [/clear]
    and text messages, and never removed.  A handler leaves every key of
    the dictionary in place, and after any sequence of updates the keys
    are exactly the users who sent an update other than [/help]. *)
Theorem entries_are_never_removed w ev evs :
  dom (user_context w) ⊆ dom (user_context (step w ev))
  /\ dom (user_context (run evs)) = known_users evs.
Proof.
  split.
  - rewrite step_dom. apply union_subseteq_l.
  - unfold run. rewrite run_from_dom. cbn [initial_world user_context].
    rewrite dom_empty_L. apply (left_id_L ∅ (∪)).
Qed.

(** ** The trim for other bounds *)

(** X12: the expression of line 113 for any bound of at least 2: on a
    context longer than the bound it returns exactly [max_len] elements,
    the first one followed by the [max_len - 1] most recent ones in
    their order, the elements between them being dropped. *)
Theorem trim_keeps_first_and_most_recent max_len first rest :
  (2 <= max_len)%Z ->
  (max_len < Z.of_nat (length (first :: rest)))%Z ->
  exists evicted kept,
    rest = evicted ++ kept
    /\ trimmed max_len (first :: rest) = Returns (first :: kept)
    /\ Z.of_nat (length (first :: kept)) = max_len
    /\ evicted <> [].
Proof.
  intros Hbound Hlong.
  destruct (recent_suffix (Z.to_nat (max_len - 1)) rest) as [evicted Hsplit].
  exists evicted, (recent (Z.to_nat (max_len - 1)) rest).
  split; [exact Hsplit |].
  split; [apply trimmed_long; assumption |].
  assert (Z.of_nat (length (first :: recent (Z.to_nat (max_len - 1)) rest)) = max_len)
    as Hlen.
  { cbn [length] in *. rewrite recent_length. lia. }
  split; [exact Hlen |].
  intros ->. cbn [app] in Hsplit. rewrite <- Hsplit in Hlen. lia.
Qed.

Lemma trim_keeps_first_and_most_recent_witness :
  exists evicted kept,
    [user_message "a"; assistant_message (Some "b"); user_message "c"] = evicted ++ kept
    /\ trimmed 3 [system_message; user_message "a"; assistant_message (Some "b");
                  user_message "c"]
       = Returns (system_message :: kept)
    /\ Z.of_nat (length (system_message :: kept)) = 3%Z
    /\ evicted <> [].
Proof.
  apply (trim_keeps_first_and_most_recent 3 system_message
           [user_message "a"; assistant_message (Some "b"); user_message "c"]);
    cbn; lia.
Defined.

(** X13: the expression of line 113 does not trim for a bound below 2.
    With a bound of 1 the slice [ctx[-0:]] is the whole list, so the
    result is the context with its first element repeated in front; with
    a bound of 0 the result is the context itself. *)
Theorem trim_needs_bound_of_2 first rest :
  trimmed 1 (first :: rest) = Returns (first :: first :: rest)
  /\ trimmed 0 (first :: rest) = Returns (first :: rest).
Proof.
  unfold trimmed. rewrite getitem_cons. split.
  - reflexivity.
  - unfold slice_from. cbn [Z.opp Z.sub Z.add Z.ltb Z.compare Z.pos_sub Z.opp].
    change (- (0 - 1))%Z with 1%Z. cbn [Z.ltb Z.compare].
    replace (Z.to_nat (Z.min 1 (Z.of_nat (length (first :: rest))))) with 1.
    + reflexivity.
    + cbn [length]. lia.
Qed.

(** ** Calls to the backend *)

Lemma count_if_app {A} (p : A -> bool) (l1 l2 : list A) :
  count_if p (l1 ++ l2) = count_if p l1 + count_if p l2.
Proof.
  unfold count_if. induction l1 as [| x l1 IH]; [reflexivity |].
  cbn [app List.filter]. destruct (p x); cbn [length]; rewrite IH; reflexivity.
Qed.

Lemma turn_result_completions env prompt :
  count_if is_completion (snd (turn_result env prompt))
  = if bool_decide (chat_action_outcome env = None) then 1 else 0.
Proof.
  unfold turn_result. destruct (chat_action_outcome env) as [msg |];
    [reflexivity |].
  rewrite bool_decide_eq_true_2 by reflexivity.
  destruct (completion_outcome env prompt) as [msg | [| [text |] others]];
    try destruct (reply_outcome env text); reflexivity.
Qed.

Lemma step_completions w ev :
  count_if is_completion (calls (step w ev))
  = count_if is_completion (calls w) + count_if asks_backend [ev].
Proof.
  unfold step. destruct ev as [env u | env u | env u | env u]; cbn [handler].
  - rewrite start_eq. cbn [snd calls]. rewrite count_if_app. reflexivity.
  - rewrite help_command_eq. cbn [snd calls]. rewrite count_if_app. reflexivity.
  - rewrite clear_eq. cbn [snd calls]. rewrite count_if_app. reflexivity.
  - rewrite handle_message_eq. cbn [snd calls].
    rewrite count_if_app, turn_result_completions.
    unfold count_if. cbn [List.filter asks_backend].
    destruct (bool_decide (chat_action_outcome env = None)); reflexivity.
Qed.

Lemma run_from_completions w evs :
  count_if is_completion (calls (run_from w evs))
  = count_if is_completion (calls w) + count_if asks_backend evs.
Proof.
  revert w. induction evs as [| ev evs IH]; intros w.
  - unfold count_if. cbn. lia.
  - cbn [run_from fold_left]. fold (run_from (step w ev) evs).
    rewrite IH, step_completions.
    change (ev :: evs) with ([ev] ++ evs). rewrite (count_if_app asks_backend). lia.
Qed.

(** X14: the handlers call [client.chat.completions.create] once per
    text message whose typing indicator was accepted, and never
    otherwise: after any sequence of updates, the number of calls to
    [create] is the number of such text messages; commands make none,
    and a failed call is not repeated by the handler.  What the client
    does inside one call to [create] is not part of this count. *)
Theorem one_create_call_per_text_message evs :
  count_if is_completion (calls (run evs)) = count_if asks_backend evs.
Proof. unfold run. rewrite run_from_completions. reflexivity. Qed.
